(** * Gap-Detector: the gap evaluator and the outcome resolver of [main.py]

    A shallow embedding of the bot's functions ([get_rsi], [get_candles],
    [build_chart_url], [check_gap], [update_outcomes], [run_bot]).

    - Prices, gaps and RSI readings are Python [float]s, that is IEEE 754
      binary64 numbers: they are modelled by Rocq's primitive floats, whose
      operations round exactly as Python's do.
    - What the HTTP endpoints answer is a decoded JSON document, a dynamically
      typed Python value ([pyval]); subscripting, [len], [in] and [float()]
      raise the exceptions Python raises.
    - The spreadsheet and the Telegram channel are the mutable state
      ([store]); a function of the bot is a state transformer that either
      returns or raises, and keeps the effects done before the raise. The
      calls on the sheet themselves ([get_all_records], [append_row],
      [update_cell]) are taken to succeed.
    - Python's conversions between text and values ([float()] of a [str],
      the format [.1f], [strftime], [strptime]) are parameters. *)

From Stdlib Require Import ZArith String Ascii List Bool Lia Floats DecimalString.
From Stdlib Require QArith Qabs.
From stdpp Require Import base option list gmap strings.

Set Warnings "-inexact-float,-register-all".
Open Scope string_scope.

(** ** A fragment of the Python runtime *)

Module Py.

(** The exceptions the modelled code can raise. [HTTPError] stands for
    whatever [requests.get(url).json()] raises (no connection, a body that
    is not JSON). *)
Inductive exn :=
  | AttributeError | HTTPError | IndexError | KeyError
  | OverflowError | TypeError | ValueError.

(** A computation that returns ([inr]) or raises ([inl]). *)
Definition result (A : Type) : Type := (exn + A)%type.

Definition raise {A} (e : exn) : result A := inl e.

#[export] Instance result_ret : MRet result := λ A x, inr x.
#[export] Instance result_bind : MBind result := λ A B f m,
  match m with inl e => inl e | inr x => f x end.

#[export] Instance result_fmap : FMap result := λ A B f m,
  match m with inl e => inl e | inr x => inr (f x) end.

(** [try: body except: return default] with a bare [except]. *)
Definition try_except {A} (body : result A) (default : A) : A :=
  match body with inl _ => default | inr x => x end.

(** Values decoded from JSON: [None], [bool], [int], [float], [str],
    [list] and [dict] with [str] keys. *)
Inductive pyval :=
  | PNone
  | PBool (b : bool)
  | PInt (z : Z)
  | PFloat (f : float)
  | PStr (s : string)
  | PList (l : list pyval)
  | PDict (d : gmap string pyval).

(** *** Strings

    A Rocq string is a sequence of bytes; a Python [str] is a sequence of
    code points, held here in UTF-8. *)

(** [sub in s] for two strings. *)
Fixpoint str_in (sub s : string) : bool :=
  if String.prefix sub s then true
  else match s with
       | EmptyString => false
       | String _ s' => str_in sub s'
       end.

(** A UTF-8 continuation byte, [10xxxxxx]. *)
Definition is_continuation (a : ascii) : bool :=
  match a with Ascii _ _ _ _ _ _ b6 b7 => b7 && negb b6 end.

(** The code points of a string, each with its bytes; the first component
    collects continuation bytes that no leading byte precedes. *)
Fixpoint utf8_split (s : string) : string * list string :=
  match s with
  | EmptyString => (EmptyString, [])
  | String a rest =>
      let '(pending, chars) := utf8_split rest in
      if is_continuation a then (String a pending, chars)
      else (EmptyString, String a pending :: chars)
  end.

Definition str_chars (s : string) : list string :=
  let '(pending, chars) := utf8_split s in
  match pending with EmptyString => chars | _ => pending :: chars end.

(** [s.replace(c, "")] for a one-character [c]. *)
Fixpoint str_remove (c : ascii) (s : string) : string :=
  match s with
  | EmptyString => EmptyString
  | String a rest =>
      if Ascii.eqb a c then str_remove c rest else String a (str_remove c rest)
  end.

(** [s.partition(c)] for a one-character [c]: the text before the first
    [c], and the text after it when there is one. *)
Fixpoint str_partition (c : ascii) (s : string) : string * option string :=
  match s with
  | EmptyString => (EmptyString, None)
  | String a rest =>
      if Ascii.eqb a c then (EmptyString, Some rest)
      else let '(l, r) := str_partition c rest in (String a l, r)
  end.

(** The ASCII characters [str.strip()] removes. *)
Definition is_space (a : ascii) : bool :=
  let n := nat_of_ascii a in
  (Nat.leb 9 n && Nat.leb n 13) || (Nat.leb 28 n && Nat.leb n 32).

Fixpoint lstrip (s : string) : string :=
  match s with
  | String a rest => if is_space a then lstrip rest else s
  | EmptyString => EmptyString
  end.

Fixpoint rstrip (s : string) : string :=
  match s with
  | EmptyString => EmptyString
  | String a rest =>
      match rstrip rest with
      | EmptyString => if is_space a then EmptyString else String a EmptyString
      | r => String a r
      end
  end.

Definition strip (s : string) : string := rstrip (lstrip s).

(** *** Sequences and mappings *)

(** [l[i]] on a list, negative indices counting from the end. *)
Definition seq_index {A} (l : list A) (i : Z) : result A :=
  let n := Z.of_nat (length l) in
  let j := if (i <? 0)%Z then (n + i)%Z else i in
  if (j <? 0)%Z then raise IndexError
  else match l !! Z.to_nat j with
       | Some x => mret x
       | None => raise IndexError
       end.

(** [len(v)]. *)
Definition py_len (v : pyval) : result Z :=
  match v with
  | PStr s => mret (Z.of_nat (length (str_chars s)))
  | PList l => mret (Z.of_nat (length l))
  | PDict d => mret (Z.of_nat (size d))
  | PNone | PBool _ | PInt _ | PFloat _ => raise TypeError
  end.

(** [c[k]]. The keys of a decoded JSON object are strings, so no number is
    a key of a [PDict]; lists and dicts are not hashable. *)
Definition py_getitem (c k : pyval) : result pyval :=
  match c with
  | PDict d =>
      match k with
      | PStr s => match d !! s with Some v => mret v | None => raise KeyError end
      | PList _ | PDict _ => raise TypeError
      | PNone | PBool _ | PInt _ | PFloat _ => raise KeyError
      end
  | PList l =>
      match k with
      | PInt i => seq_index l i
      | PBool b => seq_index l (if b then 1 else 0)%Z
      | _ => raise TypeError
      end
  | PStr s =>
      match k with
      | PInt i => PStr <$> seq_index (str_chars s) i
      | PBool b => PStr <$> seq_index (str_chars s) (if b then 1 else 0)%Z
      | _ => raise TypeError
      end
  | PNone | PBool _ | PInt _ | PFloat _ => raise TypeError
  end.

(** [s in c] for a string [s]. *)
Definition py_contains (s : string) (c : pyval) : result bool :=
  match c with
  | PDict d => mret (bool_decide (is_Some (d !! s)))
  | PList l =>
      mret (existsb (λ v, match v with PStr t => String.eqb s t | _ => false end) l)
  | PStr t => mret (str_in s t)
  | PNone | PBool _ | PInt _ | PFloat _ => raise TypeError
  end.

(** [d.get(key, default)]: only a [dict] has the method. *)
Definition py_get (c : pyval) (key : string) (dflt : pyval) : result pyval :=
  match c with
  | PDict d => mret (default dflt (d !! key))
  | _ => raise AttributeError
  end.

(** *** Numbers *)

(** [float(n)] for an [int]: the nearest binary64 number, ties to even;
    [OverflowError] when that is beyond the largest one. *)
Definition float_of_int (n : Z) : result float :=
  let f := SF2Prim (binary_normalize prec emax n 0 false) in
  if is_infinity f then raise OverflowError else mret f.

(** Truth value of a [float]: zero (of either sign) is false, every other
    value (a NaN too) is true. *)
Definition float_truth (f : float) : bool := negb (f =? 0)%float.

(** Truth value of a [float] or [None]. *)
Definition truth (o : option float) : bool :=
  match o with
  | None => false
  | Some f => float_truth f
  end.

(** *** Conversions between text and values

    The built-in conversions of Python the bot calls. They are parameters of
    the development: nothing proved below depends on what they answer. *)
Record textlib := {
  (** [float(s)] for a [str]; [None] when it raises [ValueError] *)
  float_of_str : string → option float;
  (** [f"{x:.1f}"] *)
  format_1f : float → string;
  (** [d.strftime("%Y-%m-%d %H:%M:%S")], [d] in microseconds since the epoch *)
  strftime : Z → string;
  (** [datetime.strptime(s, "%Y-%m-%d %H:%M:%S")], in microseconds since
      the epoch; [None] when it raises [ValueError] *)
  strptime : string → option Z
}.

(** [float(v)]. *)
Definition py_float (py : textlib) (v : pyval) : result float :=
  match v with
  | PFloat f => mret f
  | PInt n => float_of_int n
  | PBool b => mret (if b then 1 else 0)%float
  | PStr s =>
      match float_of_str py s with
      | Some f => mret f
      | None => raise ValueError
      end
  | PNone | PList _ | PDict _ => raise TypeError
  end.

End Py.

Import Py.

(** ** The outside world and the bot's state *)

(** What the outside world answers during one unit of work (one call of
    [check_gap], one iteration of the sweep of [update_outcomes]): each such
    unit asks each endpoint and the clock at most once.
    An endpoint answers with the decoded JSON body, [None] when
    [requests.get(url).json()] raises. Datetimes are microseconds since the
    epoch, as Python's naive [datetime] counts them. *)
Record world := {
  (** [/time_series?symbol=..&interval=..&outputsize=..] *)
  time_series : string → string → Z → option pyval;
  (** [/rsi?symbol=..&interval=..] *)
  rsi_series : string → string → option pyval;
  (** [datetime.utcnow()] *)
  utcnow : Z
}.

(** A row of the sheet [Forex_Gap_Logger], columns 1 to 9. Cells hold text,
    as [append_row] writes them. Reading the sheet, [get_all_records] turns a
    cell that looks like a number into a number: of the columns the sweep
    reads that is the gap, which goes through [float()] either way; the
    others are taken to hold text that is no number. *)
Record row := {
  Timestamp : string;
  Pair : string;
  TF : string;
  Gap_pips : string;
  RSI : string;
  Direction : string;
  Suggestion : string;
  Outcome : string;
  ChartURL : string
}.

(** The state the bot acts on: the data rows of the sheet (row 2 onwards,
    row 1 is the header) and the texts posted to the Telegram chat. *)
Record store := {
  sheet : list row;
  posted : list string
}.

(** A statement of the bot: it returns or raises, and leaves a store. *)
Definition M (A : Type) : Type := store → result A * store.

#[export] Instance M_ret : MRet M := λ A x st, (inr x, st).
#[export] Instance M_bind : MBind M := λ A B f m st,
  match m st with
  | (inl e, st') => (inl e, st')
  | (inr x, st') => f x st'
  end.

(** A computation without effect, as a statement. *)
Definition lift {A} (r : result A) : M A := λ st, (r, st).

(** [for x in l: body(x)] *)
Fixpoint for_in {A} (l : list A) (body : A → M unit) : M unit :=
  match l with
  | [] => mret tt
  | x :: rest => body x ;; for_in rest body
  end.

(** [enumerate(l, start)] *)
Fixpoint enumerate {A} (start : nat) (l : list A) : list (nat * A) :=
  match l with
  | [] => []
  | x :: rest => (start, x) :: enumerate (S start) rest
  end.

(** *** The sheet *)

Definition get_all_records : M (list row) := λ st, (inr (sheet st), st).

Definition append_row (r : row) : M unit := λ st,
  (inr tt, {| sheet := sheet st ++ [r]; posted := posted st |}).

(** The cell of column [c] set to [v]. *)
Definition set_cell (c : nat) (v : string) (r : row) : row :=
  match c with
  | 1 => {| Timestamp := v; Pair := Pair r; TF := TF r; Gap_pips := Gap_pips r;
            RSI := RSI r; Direction := Direction r; Suggestion := Suggestion r;
            Outcome := Outcome r; ChartURL := ChartURL r |}
  | 2 => {| Timestamp := Timestamp r; Pair := v; TF := TF r; Gap_pips := Gap_pips r;
            RSI := RSI r; Direction := Direction r; Suggestion := Suggestion r;
            Outcome := Outcome r; ChartURL := ChartURL r |}
  | 3 => {| Timestamp := Timestamp r; Pair := Pair r; TF := v; Gap_pips := Gap_pips r;
            RSI := RSI r; Direction := Direction r; Suggestion := Suggestion r;
            Outcome := Outcome r; ChartURL := ChartURL r |}
  | 4 => {| Timestamp := Timestamp r; Pair := Pair r; TF := TF r; Gap_pips := v;
            RSI := RSI r; Direction := Direction r; Suggestion := Suggestion r;
            Outcome := Outcome r; ChartURL := ChartURL r |}
  | 5 => {| Timestamp := Timestamp r; Pair := Pair r; TF := TF r; Gap_pips := Gap_pips r;
            RSI := v; Direction := Direction r; Suggestion := Suggestion r;
            Outcome := Outcome r; ChartURL := ChartURL r |}
  | 6 => {| Timestamp := Timestamp r; Pair := Pair r; TF := TF r; Gap_pips := Gap_pips r;
            RSI := RSI r; Direction := v; Suggestion := Suggestion r;
            Outcome := Outcome r; ChartURL := ChartURL r |}
  | 7 => {| Timestamp := Timestamp r; Pair := Pair r; TF := TF r; Gap_pips := Gap_pips r;
            RSI := RSI r; Direction := Direction r; Suggestion := v;
            Outcome := Outcome r; ChartURL := ChartURL r |}
  | 8 => {| Timestamp := Timestamp r; Pair := Pair r; TF := TF r; Gap_pips := Gap_pips r;
            RSI := RSI r; Direction := Direction r; Suggestion := Suggestion r;
            Outcome := v; ChartURL := ChartURL r |}
  | 9 => {| Timestamp := Timestamp r; Pair := Pair r; TF := TF r; Gap_pips := Gap_pips r;
            RSI := RSI r; Direction := Direction r; Suggestion := Suggestion r;
            Outcome := Outcome r; ChartURL := v |}
  | _ => r
  end.

(** [sheet.update_cell(r, c, v)]: sheet row [r] is data row [r - 2]. *)
Definition update_cell (r c : nat) (v : string) : M unit := λ st,
  (inr tt,
   {| sheet := match r with
               | S (S i) => alter (set_cell c v) i (sheet st)
               | _ => sheet st
               end;
      posted := posted st |}).

(** ** The bot *)

Section Bot.
Context (py : textlib).

(** *** Configuration *)

Definition PAIR_LIST : list string :=
  ["GBP/USD"; "EUR/USD"; "USD/JPY"; "EUR/JPY"; "AUD/JPY"].

(** A [dict] literal, in insertion order (the order [for tf in TF_MAP]
    visits its keys). *)
Definition TF_MAP : list (string * string) := [("4h", "240"); ("1day", "D")].

Definition MIN_GAP_PIPS : float := 20.

(** [d.get(key, default)] on such a literal. *)
Fixpoint dict_get (d : list (string * string)) (key dflt : string) : string :=
  match d with
  | [] => dflt
  | (k, v) :: rest => if String.eqb k key then v else dict_get rest key dflt
  end.

(** *** Utilities *)

(** The text handed to [requests.post]; an exception of the call is caught
    and printed, and changes nothing else. *)
Definition send_to_telegram (msg : string) : M unit := λ st,
  (inr tt, {| sheet := sheet st; posted := posted st ++ [msg] |}).

Definition http_json (answer : option pyval) : result pyval :=
  match answer with
  | Some v => mret v
  | None => raise HTTPError
  end.

Definition get_rsi (w : world) (pair tf : string) : option float :=
  try_except
    (data ← http_json (rsi_series w pair tf);
     has ← py_contains "values" data;
     if has : bool then
       values ← py_getitem data (PStr "values");
       first ← py_getitem values (PInt 0);
       rsi ← py_getitem first (PStr "rsi");
       Some <$> py_float py rsi
     else mret None)
    None.

Definition get_candles (w : world) (pair tf : string) (count : Z) : pyval :=
  try_except
    (data ← http_json (time_series w pair tf count);
     py_get data "values" (PList []))
    (PList []).

Definition build_chart_url (pair tf : string) : string :=
  let tv_pair := str_remove "/" pair in
  let tv_tf := dict_get TF_MAP tf "240" in
  "https://www.tradingview.com/chart/?symbol=FX:" ++ tv_pair ++ "&interval=" ++ tv_tf.

(** [float(candles[i][field])] *)
Definition price (candles : pyval) (i : Z) (field : string) : result float :=
  candle ← py_getitem candles (PInt i);
  text ← py_getitem candle (PStr field);
  py_float py text.

(** *** Main gap check and logging *)

(** [0.0001 if "JPY" not in pair else 0.01], line 68 *)
Definition check_gap_pip_value (pair : string) : float :=
  if negb (str_in "JPY" pair) then 0.0001%float else 0.01%float.

(** [f"{rsi:.1f}" if rsi else "N/A"] *)
Definition rsi_text (rsi : option float) : string :=
  match rsi with
  | Some r => if float_truth r then format_1f py r else "N/A"
  | None => "N/A"
  end.

(** [rsi and test(rsi)], as a condition: [rsi] itself when it is false. *)
Definition rsi_and (rsi : option float) (test : float → bool) : bool :=
  match rsi with
  | Some r => if float_truth r then test r else false
  | None => false
  end.

(** The suggestion logic, lines 79 to 83. *)
Definition suggestion_for (direction : string) (rsi : option float) : string :=
  if String.eqb direction "GAP UP" then
    if rsi_and rsi (λ r, 70 <? r)%float
    then "Overbought GAP UP. Consider SHORT."
    else "GAP UP. Wait for structure."
  else
    if rsi_and rsi (λ r, r <? 30)%float
    then "Oversold GAP DOWN. Consider LONG."
    else "GAP DOWN. Wait for confirmation.".

Definition nl : string := String (ascii_of_nat 10) EmptyString.

(** The Telegram message, before [strip()]. *)
Definition message_text
    (direction pair tf gap rsi_str suggestion chart_url : string) : string :=
  nl ++ "📊 " ++ direction ++ " Detected!" ++ nl ++
  "📍 Pair: " ++ pair ++ nl ++
  "🕒 TF: " ++ tf ++ nl ++
  "📏 Gap: " ++ gap ++ " pips" ++ nl ++
  "📉 RSI: " ++ rsi_str ++ nl ++
  nl ++
  "🧠 Suggestion:" ++ nl ++
  suggestion ++ nl ++
  nl ++
  "🔗 " ++ chart_url ++ nl ++
  "    ".

Definition check_gap (w : world) (pair tf : string) : M unit :=
  let candles := get_candles w pair tf 2 in
  n ← lift (py_len candles);
  if (n <? 2)%Z then mret tt else
  curr_open ← lift (price candles 0 "open");
  prev_close ← lift (price candles 1 "close");
  let pip_value := check_gap_pip_value pair in
  let gap_pips := (abs (curr_open - prev_close) / pip_value)%float in
  if (gap_pips <? MIN_GAP_PIPS)%float then mret tt else
  let direction := if (prev_close <? curr_open)%float then "GAP UP" else "GAP DOWN" in
  let rsi := get_rsi w pair tf in
  let rsi_str := rsi_text rsi in
  let chart_url := build_chart_url pair tf in
  let suggestion := suggestion_for direction rsi in
  let message :=
    message_text direction pair tf (format_1f py gap_pips) rsi_str suggestion chart_url in
  send_to_telegram (strip message);;
  let timestamp := strftime py (utcnow w) in
  append_row {| Timestamp := timestamp; Pair := pair; TF := tf;
                Gap_pips := format_1f py gap_pips; RSI := rsi_str;
                Direction := direction; Suggestion := suggestion;
                Outcome := "Pending"; ChartURL := chart_url |}.

(** *** Outcome tracking *)

(** [0.0001 if "JPY" not in pair else 0.01], line 119 *)
Definition update_outcomes_pip_value (pair : string) : float :=
  if negb (str_in "JPY" pair) then 0.0001%float else 0.01%float.

(** [6 * 3600 if tf == "4h" else 24 * 3600], in seconds *)
Definition wait_time_for (tf : string) : Z :=
  if String.eqb tf "4h" then 6 * 3600 else 24 * 3600.

(** [age < wait_time] for [age = delta.total_seconds()]. The age is the
    float nearest to [delta / 10^6]; against a whole number of seconds such
    as 21600 or 86400, which is a float and has floats closer than a
    microsecond below it, the rounding changes no comparison. *)
Definition age_lt (delta wait_time : Z) : bool :=
  (delta <? wait_time * 1000000)%Z.

(** The body of the loop of [update_outcomes], for the sheet row [idx] and
    its record [entry]; a [continue] is a return. *)
Definition update_outcomes_body (w : world) (idx : nat) (entry : row) : M unit :=
  if negb (String.eqb (Outcome entry) "Pending") then mret tt else
  let pair := Pair entry in
  let tf := TF entry in
  gap_pips ← lift (py_float py (PStr (Gap_pips entry)));
  let direction := Direction entry in
  let timestamp := Timestamp entry in
  let pip_value := update_outcomes_pip_value pair in
  occured_at ← lift (match strptime py timestamp with
                     | Some d => mret d
                     | None => raise ValueError
                     end);
  let age := (utcnow w - occured_at)%Z in
  let wait_time := wait_time_for tf in
  if age_lt age wait_time then mret tt else
  let candles := get_candles w pair tf 1 in
  n ← lift (py_len candles);
  if (n <? 1)%Z then mret tt else
  open_price ← lift (price candles 0 "open");
  curr_price ← lift (price candles 0 "close");
  if String.eqb direction "GAP UP" then
    let expected_fill := (open_price - gap_pips * pip_value)%float in
    if (curr_price <=? expected_fill)%float
    then update_cell idx 8 "Filled ✅"
    else update_cell idx 8 "Not Filled ❌"
  else if String.eqb direction "GAP DOWN" then
    let expected_fill := (open_price + gap_pips * pip_value)%float in
    if (expected_fill <=? curr_price)%float
    then update_cell idx 8 "Filled ✅"
    else update_cell idx 8 "Not Filled ❌"
  else mret tt.

(** The sweep. [later idx] is the world as the iteration for sheet row
    [idx] finds it. The loop runs over the records read at the start; the
    writes go to the sheet. *)
Definition update_outcomes (later : nat → world) : M unit :=
  rows ← get_all_records;
  for_in (enumerate 2 rows) (λ '(idx, entry), update_outcomes_body (later idx) idx entry).

(** *** Main run *)

(** [market pair tf] is the world as [check_gap(pair, tf)] finds it. *)
Definition run_bot (market : string → string → world) (later : nat → world) : M unit :=
  for_in PAIR_LIST (λ pair,
    for_in (TF_MAP.*1) (λ tf, check_gap (market pair tf) pair tf));;
  update_outcomes later.

End Bot.

(** ** An instance of the text conversions

    Executable conversions for the examples: exact on the texts and values
    they accept, and [None] elsewhere. *)

Module Sample.

Definition digit (a : ascii) : option Z :=
  let n := nat_of_ascii a in
  if Nat.leb 48 n && Nat.leb n 57 then Some (Z.of_nat (n - 48)) else None.

Fixpoint digits_value (s : string) (acc : Z) : option Z :=
  match s with
  | EmptyString => Some acc
  | String a rest =>
      match digit a with
      | Some d => digits_value rest (10 * acc + d)
      | None => None
      end
  end.

(** An unsigned decimal [ddd], [ddd.ddd], [ddd.] or [.ddd] with fewer than
    [2^53] as its digits and at most 22 of them after the point: numerator
    and power of ten are both floats, and their quotient, rounded once, is
    the float nearest to the decimal. *)
Definition unsigned_decimal (s : string) : option float :=
  let '(int_part, frac) := str_partition "." s in
  let frac_part := default EmptyString frac in
  if Nat.eqb (String.length int_part + String.length frac_part) 0 then None
  else
    n ← digits_value (int_part +:+ frac_part) 0;
    let k := String.length frac_part in
    if (n <? 2 ^ 53)%Z && Nat.leb k 22 then
      match float_of_int n, float_of_int (10 ^ Z.of_nat k) with
      | inr num, inr den => Some (num / den)%float
      | _, _ => None
      end
    else None.

Definition float_of_str (s : string) : option float :=
  match s with
  | String "-" rest => (λ f, - f)%float <$> unsigned_decimal rest
  | String "+" rest => unsigned_decimal rest
  | _ => unsigned_decimal s
  end.

Definition decimal_of_Z (n : Z) : string :=
  DecimalString.NilZero.string_of_uint (N.to_uint (Z.to_N n)).

(** [m * 2^e * 10] rounded to the nearest integer, ties to even. *)
Definition tenths (m : positive) (e : Z) : Z :=
  match e with
  | Zneg p =>
      let num := (10 * Zpos m)%Z in
      let den := (2 ^ Zpos p)%Z in
      let q := (num / den)%Z in
      let r := (num mod den)%Z in
      match (2 * r ?= den)%Z with
      | Lt => q
      | Gt => (q + 1)%Z
      | Eq => if Z.even q then q else (q + 1)%Z
      end
  | _ => (10 * Zpos m * 2 ^ e)%Z
  end.

Definition format_1f (f : float) : string :=
  match Prim2SF f with
  | S754_nan => "nan"
  | S754_infinity s => if s then "-inf" else "inf"
  | S754_zero s => if s then "-0.0" else "0.0"
  | S754_finite s m e =>
      let t := tenths m e in
      (if s then "-" else "") +:+ decimal_of_Z (t / 10) +:+ "." +:+ decimal_of_Z (t mod 10)
  end.

(** Days since 1970-01-01 of a date of the proleptic Gregorian calendar. *)
Definition days_from_civil (y m d : Z) : Z :=
  let y' := (if m <=? 2 then y - 1 else y)%Z in
  let era := (y' / 400)%Z in
  let yoe := (y' - era * 400)%Z in
  let doy := ((153 * (if m <=? 2 then m + 9 else m - 3) + 2) / 5 + d - 1)%Z in
  let doe := (yoe * 365 + yoe / 4 - yoe / 100 + doy)%Z in
  (era * 146097 + doe - 719468)%Z.

(** The date [(year, month, day)] of a day count. *)
Definition civil_from_days (z : Z) : Z * Z * Z :=
  let z' := (z + 719468)%Z in
  let era := (z' / 146097)%Z in
  let doe := (z' - era * 146097)%Z in
  let yoe := ((doe - doe / 1460 + doe / 36524 - doe / 146096) / 365)%Z in
  let doy := (doe - (365 * yoe + yoe / 4 - yoe / 100))%Z in
  let mp := ((5 * doy + 2) / 153)%Z in
  let d := (doy - (153 * mp + 2) / 5 + 1)%Z in
  let m := (if mp <? 10 then mp + 3 else mp - 9)%Z in
  let y := (yoe + era * 400 + (if m <=? 2 then 1 else 0))%Z in
  (y, m, d).

Definition two_digits (n : Z) : string :=
  decimal_of_Z (n / 10) +:+ decimal_of_Z (n mod 10).

Definition four_digits (n : Z) : string :=
  two_digits (n / 100) +:+ two_digits (n mod 100).

Definition strftime (us : Z) : string :=
  let secs := (us / 1000000)%Z in
  let '(y, m, d) := civil_from_days (secs / 86400) in
  let s := (secs mod 86400)%Z in
  four_digits y +:+ "-" +:+ two_digits m +:+ "-" +:+ two_digits d +:+ " " +:+
  two_digits (s / 3600) +:+ ":" +:+ two_digits (s mod 3600 / 60) +:+ ":" +:+
  two_digits (s mod 60).

(** The number written by the [len] characters of [s] from position [pos],
    all of them digits. *)
Definition field (s : string) (pos len : nat) : option Z :=
  let t := String.substring pos len s in
  if Nat.eqb (String.length t) len then digits_value t 0 else None.

(** The text [YYYY-MM-DD HH:MM:SS], every field at full width. *)
Definition strptime (s : string) : option Z :=
  if negb (Nat.eqb (String.length s) 19) then None else
  if negb (String.eqb (String.substring 4 1 s) "-" && String.eqb (String.substring 7 1 s) "-"
           && String.eqb (String.substring 10 1 s) " " && String.eqb (String.substring 13 1 s) ":"
           && String.eqb (String.substring 16 1 s) ":") then None else
  y ← field s 0 4; m ← field s 5 2; d ← field s 8 2;
  hh ← field s 11 2; mm ← field s 14 2; ss ← field s 17 2;
  let days := days_from_civil y m d in
  if (1 <=? y)%Z && (hh <? 24)%Z && (mm <? 60)%Z && (ss <? 60)%Z
     && bool_decide (civil_from_days days = (y, m, d))
  then Some ((((days * 24 + hh) * 60 + mm) * 60 + ss) * 1000000)%Z
  else None.

Definition textlib : Py.textlib :=
  {| Py.float_of_str := float_of_str;
     Py.format_1f := format_1f;
     Py.strftime := strftime;
     Py.strptime := strptime |}.

End Sample.

(** ** Repeated runs *)

(** The bot run once per entry of [cycles], as a scheduler does; a run that
    raises ends the process, the next one starts from the sheet as it is. *)
Fixpoint run_cycles (py : textlib)
    (cycles : list ((string → string → world) * (nat → world))) (st : store) : store :=
  match cycles with
  | [] => st
  | (market, later) :: rest => run_cycles py rest (run_bot py market later st).2
  end.

(** ** The specification's tables *)

(** The two directions of the data model. *)
Inductive direction := GAP_UP | GAP_DOWN.

(** The text the bot writes for a direction. *)
Definition direction_text (d : direction) : string :=
  match d with GAP_UP => "GAP UP" | GAP_DOWN => "GAP DOWN" end.

(** The Suggestion Classifier as the specification tabulates it, on a
    direction and an RSI reading or none. *)
Definition spec_suggestion (d : direction) (rsi : option float) : string :=
  match d, rsi with
  | GAP_UP, Some r =>
      if (70 <? r)%float then "Overbought GAP UP. Consider SHORT."
      else "GAP UP. Wait for structure."
  | GAP_UP, None => "GAP UP. Wait for structure."
  | GAP_DOWN, Some r =>
      if (r <? 30)%float then "Oversold GAP DOWN. Consider LONG."
      else "GAP DOWN. Wait for confirmation."
  | GAP_DOWN, None => "GAP DOWN. Wait for confirmation."
  end.

(** The quote currency of a symbol [BASE/QUOTE]: the text after the slash. *)
Definition quote_currency (pair : string) : string :=
  default EmptyString (str_partition "/" pair).2.

(** The pip size as the specification words it: 0.01 for a pair quoting
    Japanese Yen, 0.0001 for every other pair. *)
Definition spec_pip_size (pair : string) : float :=
  if String.eqb (quote_currency pair) "JPY" then 0.01%float else 0.0001%float.

(** ** Sample worlds and sheets *)

Module Scenario.

Definition no_store : store := {| sheet := []; posted := [] |}.

(** A candle as the time-series endpoint lists it. *)
Definition candle (open close : string) : pyval :=
  PDict {[ "open" := PStr open; "close" := PStr close ]}.

Definition values (l : list pyval) : option pyval :=
  Some (PDict {[ "status" := PStr "ok"; "values" := PList l ]}).

Definition rsi_reading (text : string) : option pyval :=
  values [PDict {[ "rsi" := PStr text ]}].

(** 2024-05-01 07:00:00 UTC *)
Definition seven_o_clock : Z := 1714546800000000.

(** Open 1.2500 after a close at 1.2470: thirty pips up. *)
Definition gap_up : world :=
  {| time_series := λ _ _ _, values [candle "1.2500" "1.2490"; candle "1.2450" "1.2470"];
     rsi_series := λ _ _, rsi_reading "55.3";
     utcnow := seven_o_clock |}.

(** The same gap with the RSI endpoint out of reach. *)
Definition gap_up_no_rsi : world :=
  {| time_series := time_series gap_up;
     rsi_series := λ _ _, None;
     utcnow := seven_o_clock |}.

(** Open 1.2470 after a close at 1.2500, with an RSI of zero. *)
Definition gap_down_rsi_zero : world :=
  {| time_series := λ _ _ _, values [candle "1.2470" "1.2460"; candle "1.2510" "1.2500"];
     rsi_series := λ _ _, rsi_reading "0.0";
     utcnow := seven_o_clock |}.

(** USD/JPY opening at 150.00 after a close at 149.85: fifteen pips. *)
Definition yen_gap : world :=
  {| time_series := λ _ _ _, values [candle "150.00" "149.90"; candle "149.80" "149.85"];
     rsi_series := λ _ _, rsi_reading "61.0";
     utcnow := seven_o_clock |}.

(** No candle at all. *)
Definition quiet : world :=
  {| time_series := λ _ _ _, values [];
     rsi_series := λ _ _, rsi_reading "50.0";
     utcnow := seven_o_clock |}.

(** Two candles without their fields. *)
Definition malformed : world :=
  {| time_series := λ _ _ _, values [PDict ∅; PDict ∅];
     rsi_series := λ _ _, rsi_reading "50.0";
     utcnow := seven_o_clock |}.

(** A market whose first answer, for GBP/USD on 4h, is [first], and where
    EUR/USD gaps up on 4h; the other pairs and timeframes are quiet. *)
Definition market (first : world) (pair tf : string) : world :=
  if String.eqb tf "4h" then
    if String.eqb pair "GBP/USD" then first
    else if String.eqb pair "EUR/USD" then gap_up
    else quiet
  else quiet.

(** A GAP UP of 25 pips on GBP/USD, logged at midnight. *)
Definition logged (direction outcome : string) : row :=
  {| Timestamp := "2024-05-01 00:00:00"; Pair := "GBP/USD"; TF := "4h";
     Gap_pips := "25.0"; RSI := "55.3"; Direction := direction;
     Suggestion := "GAP UP. Wait for structure."; Outcome := outcome;
     ChartURL := "https://www.tradingview.com/chart/?symbol=FX:GBPUSD&interval=240" |}.

(** The latest candle opens at 1.3000 and closes at [close], at [now]. *)
Definition revisit (close : string) (now : Z) : nat → world := λ _,
  {| time_series := λ _ _ _, values [candle "1.3000" close];
     rsi_series := λ _ _, None;
     utcnow := now |}.

(** 2024-05-01 03:00:00 UTC *)
Definition three_o_clock : Z := 1714532400000000.

End Scenario.

(** ** Worlds and rows at the edges *)

Module Edge.

(** The provider refuses: an object without [values]. *)
Definition refused : world :=
  {| time_series := λ _ _ _,
       Some (PDict {[ "status" := PStr "error"; "code" := PInt 429 ]});
     rsi_series := λ _ _, None;
     utcnow := Scenario.seven_o_clock |}.

(** An object whose [values] is [null]. *)
Definition values_null : world :=
  {| time_series := λ _ _ _, Some (PDict {[ "values" := PNone ]});
     rsi_series := λ _ _, None;
     utcnow := Scenario.seven_o_clock |}.

(** Two candles, the open of the current one a NaN. *)
Definition nan_open : world :=
  {| time_series := λ _ _ _,
       Scenario.values [PDict {[ "open" := PFloat nan; "close" := PStr "1.2490" ]};
                        Scenario.candle "1.2450" "1.2470"];
     rsi_series := λ _ _, None;
     utcnow := Scenario.seven_o_clock |}.

(** The latest candle closes at a NaN, seven hours after midnight. *)
Definition nan_close : nat → world := λ _,
  {| time_series := λ _ _ _,
       Scenario.values [PDict {[ "open" := PStr "1.3000"; "close" := PFloat nan ]}];
     rsi_series := λ _ _, None;
     utcnow := Scenario.seven_o_clock |}.

(** Seven hours after midnight, the time-series endpoint out of reach. *)
Definition no_answer : nat → world := λ _,
  {| time_series := λ _ _ _, None;
     rsi_series := λ _ _, None;
     utcnow := Scenario.seven_o_clock |}.

(** A pending row whose gap cell is no number. *)
Definition unreadable : row := set_cell 4 "n/a" (Scenario.logged "GAP UP" "Pending").

End Edge.

(** ** The specification's arithmetic, on decimals

    The specification computes on the decimals the candles and the sheet
    carry; here they are rationals, and its formulas are exact. *)

Module Decimal.

(** The number an unsigned decimal writes. *)
Definition unsigned_value (s : string) : option QArith_base.Q :=
  let '(int_part, frac) := str_partition "." s in
  let frac_part := default EmptyString frac in
  if Nat.eqb (String.length int_part + String.length frac_part) 0 then None
  else
    n ← Sample.digits_value (int_part +:+ frac_part) 0;
    Some (QArith_base.Qmake n (Z.to_pos (10 ^ Z.of_nat (String.length frac_part)))).

Definition value (s : string) : option QArith_base.Q :=
  match s with
  | String "-" rest => QArith_base.Qopp <$> unsigned_value rest
  | _ => unsigned_value s
  end.

(** The pip size of the specification: 0.01 for a pair quoting Japanese
    Yen, 0.0001 for every other pair. *)
Definition pip_size (pair : string) : QArith_base.Q :=
  if String.eqb (quote_currency pair) "JPY"
  then QArith_base.Qmake 1 100 else QArith_base.Qmake 1 10000.

(** [gap_pips = |curr.open - prev.close| / pip_size(pair)] *)
Definition gap_pips (curr_open prev_close pair : string) : option QArith_base.Q :=
  o ← value curr_open;
  c ← value prev_close;
  Some (Qreduction.Qred
          (QArith_base.Qdiv (Qabs.Qabs (QArith_base.Qminus o c)) (pip_size pair))).

(** The fill test of the specification: for GAP_UP the close is at most
    [open - gap_pips * pip_size], for GAP_DOWN at least
    [open + gap_pips * pip_size]. *)
Definition filled (d : direction) (open close gap pair : string) : option bool :=
  o ← value open;
  c ← value close;
  g ← value gap;
  let move := QArith_base.Qmult g (pip_size pair) in
  Some match d with
       | GAP_UP => QArith_base.Qle_bool c (QArith_base.Qminus o move)
       | GAP_DOWN => QArith_base.Qle_bool (QArith_base.Qplus o move) c
       end.

End Decimal.

(** ** Worlds and rows on the boundary *)

Module Boundary.

(** USD/JPY opening at 150.20 after a close at 150.00: twenty pips. *)
Definition twenty_pips : world :=
  {| time_series := λ _ _ _,
       Scenario.values [Scenario.candle "150.20" "150.10";
                        Scenario.candle "149.90" "150.00"];
     rsi_series := λ _ _, None;
     utcnow := Scenario.seven_o_clock |}.

(** A GAP UP of 35 pips on GBP/USD, logged at midnight. *)
Definition logged_35 : row := set_cell 4 "35.0" (Scenario.logged "GAP UP" "Pending").

(** Seven hours on, the latest candle opens at 1.2001 and closes at 1.1966. *)
Definition at_the_fill : nat → world := λ _,
  {| time_series := λ _ _ _, Scenario.values [Scenario.candle "1.2001" "1.1966"];
     rsi_series := λ _ _, None;
     utcnow := Scenario.seven_o_clock |}.

End Boundary.

(** ** Numbers among the floats *)

(** The floats that are a number of finite size: the zeros and the finite
    values of [spec_float]. *)
Variant is_number : spec_float → Prop :=
  | number_zero s : is_number (S754_zero s)
  | number_finite s m e : is_number (S754_finite s m e).

(** ** Binary64 comparisons

    The order of the floats, read off their specification. *)

Section Float_order.
Local Open Scope float_scope.

Lemma SFcompare_antisym (x y : spec_float) :
  SFcompare y x = CompOpp <$> SFcompare x y.
Proof.
  destruct x as [sx|sx| |sx mx ex], y as [sy|sy| |sy my ey]; simpl;
    try reflexivity; try (destruct sx; reflexivity); try (destruct sy; reflexivity);
    try (destruct sx, sy; reflexivity).
  assert (Pos.compare_cont Eq my mx = CompOpp (Pos.compare_cont Eq mx my)) as Hm
    by (rewrite Pos.compare_cont_antisym; reflexivity).
  destruct sx, sy; simpl; try reflexivity;
    rewrite (Z.compare_antisym ex ey), Hm;
    destruct (ex ?= ey)%Z, (Pos.compare_cont Eq mx my); reflexivity.
Qed.

Lemma is_nan_false (x : float) : is_nan x = false ↔ Prim2SF x ≠ S754_nan.
Proof.
  unfold is_nan. rewrite FloatAxioms.eqb_spec. unfold SFeqb.
  destruct (Prim2SF x) as [s|s| |s m e]; simpl.
  - split; [discriminate | reflexivity].
  - destruct s; split; (discriminate || reflexivity).
  - split; [discriminate | congruence].
  - assert (Pos.compare_cont Eq m m = Eq) as Hm by apply Pos.compare_refl.
    destruct s; rewrite Z.compare_refl, Hm; simpl; split; (discriminate || reflexivity).
Qed.

(** Two numbers are ordered: [x < y] fails exactly when [y <= x]. *)
Lemma ltb_negb_leb (x y : float) :
  is_nan x = false → is_nan y = false → (x <? y) = negb (y <=? x).
Proof.
  rewrite !is_nan_false, FloatAxioms.ltb_spec, FloatAxioms.leb_spec. unfold SFltb, SFleb.
  rewrite (SFcompare_antisym (Prim2SF x) (Prim2SF y)).
  destruct (Prim2SF x) as [sx|sx| |sx mx ex], (Prim2SF y) as [sy|sy| |sy my ey];
    intros Hx Hy; try congruence;
    match goal with |- context [SFcompare ?a ?b] => destruct (SFcompare a b) as [[]|] eqn:E end;
    simpl in *; try reflexivity; try discriminate;
    repeat match goal with s : bool |- _ => destruct s end; discriminate.
Qed.

(** [y <= x] rules a NaN out on both sides. *)
Lemma leb_not_nan (x y : float) : (y <=? x) = true → is_nan x = false ∧ is_nan y = false.
Proof.
  rewrite !is_nan_false, FloatAxioms.leb_spec. unfold SFleb.
  destruct (Prim2SF x), (Prim2SF y); simpl; intros H; split; congruence.
Qed.

Lemma eqb_leb (x y : float) : (x =? y) = true → (y <=? x) = true.
Proof.
  rewrite FloatAxioms.eqb_spec, FloatAxioms.leb_spec. unfold SFeqb, SFleb.
  rewrite (SFcompare_antisym (Prim2SF x) (Prim2SF y)).
  destruct (SFcompare (Prim2SF x) (Prim2SF y)) as [[]|]; simpl; congruence.
Qed.

(** A float equal to zero is one of the two zeros. *)
Lemma eqb_zero (x : float) : (x =? 0) = true → x = 0 ∨ x = (-0).
Proof.
  rewrite FloatAxioms.eqb_spec. unfold SFeqb. intros H.
  rewrite <- (SF2Prim_Prim2SF x).
  destruct (Prim2SF x) as [s|s| |s m e]; simpl in H.
  - destruct s; [right | left]; reflexivity.
  - destruct s; discriminate.
  - discriminate.
  - change (Prim2SF 0) with (S754_zero false) in H. simpl in H. destruct s; discriminate.
Qed.

(** *** Finite values

    The rounding of the specification never makes a NaN of a mantissa that
    is not negative: the difference of two finite floats is a number, and so
    is its quotient by a finite float. *)

Lemma is_finite_number (x : float) : is_finite x = true → is_number (Prim2SF x).
Proof.
  unfold is_finite. rewrite negb_true_iff, orb_false_iff, is_nan_false.
  unfold is_infinity. rewrite FloatAxioms.eqb_spec, abs_spec.
  change (Prim2SF infinity) with (S754_infinity false).
  destruct (Prim2SF x) as [s|s| |s m e]; intros [Hnan Hinf];
    [constructor | discriminate | congruence | constructor].
Qed.

(** Shifting right keeps a mantissa from going negative. *)
Lemma shr_1_nonneg mrs : (0 ≤ shr_m mrs)%Z → (0 ≤ shr_m (shr_1 mrs))%Z.
Proof. destruct mrs as [[|[p|p|]|p] r s]; simpl; lia. Qed.

Lemma iter_shr_1_nonneg p mrs :
  (0 ≤ shr_m mrs)%Z → (0 ≤ shr_m (SpecFloat.iter_pos shr_1 p mrs))%Z.
Proof.
  revert mrs. induction p as [p IH|p IH|]; intros mrs H; simpl.
  - apply IH, IH, shr_1_nonneg, H.
  - apply IH, IH, H.
  - apply shr_1_nonneg, H.
Qed.

Lemma shr_fexp_nonneg m e l :
  (0 ≤ m)%Z → (0 ≤ shr_m (shr_fexp prec emax m e l).1)%Z.
Proof.
  intros Hm. unfold shr_fexp, shr.
  assert (0 ≤ shr_m (shr_record_of_loc m l))%Z as H0 by (destruct l as [|[]]; exact Hm).
  destruct (fexp prec emax (Zdigits2 m + e) - e)%Z; simpl; try exact H0.
  by apply iter_shr_1_nonneg.
Qed.

Lemma binary_round_aux_not_nan s m e l :
  (0 ≤ m)%Z → binary_round_aux prec emax s m e l ≠ S754_nan.
Proof.
  intros Hm. unfold binary_round_aux.
  pose proof (shr_fexp_nonneg m e l Hm) as H1.
  destruct (shr_fexp prec emax m e l) as [mrs' e']. simpl in H1.
  assert (0 ≤ round_nearest_even (shr_m mrs') (loc_of_shr_record mrs'))%Z as H2.
  { unfold round_nearest_even. destruct (loc_of_shr_record mrs') as [|[]];
      try destruct (Z.even (shr_m mrs')); lia. }
  pose proof (shr_fexp_nonneg _ e' loc_Exact H2) as H3.
  destruct (shr_fexp prec emax _ e' loc_Exact) as [mrs'' e'']. simpl in H3.
  destruct (shr_m mrs'') as [|p|p]; [discriminate | | lia].
  destruct (_ <=? _)%Z; discriminate.
Qed.

Lemma binary_normalize_not_nan m e sz : binary_normalize prec emax m e sz ≠ S754_nan.
Proof.
  destruct m as [|p|p]; simpl; [discriminate | |];
    unfold binary_round; destruct (shl_align _ _ _) as [mz ez];
    apply binary_round_aux_not_nan; lia.
Qed.

Lemma SFsub_number x y :
  is_number x → is_number y → SF64sub x y ≠ S754_nan.
Proof.
  intros [sx|sx mx ex] [sy|sy my ey]; unfold SF64sub, SFsub;
    try discriminate; [destruct sx, sy; discriminate|].
  apply binary_normalize_not_nan.
Qed.

Lemma SFdiv_number x y s m e :
  x ≠ S754_nan → y = S754_finite s m e → SF64div x y ≠ S754_nan.
Proof.
  intros Hx ->. destruct x as [sx|sx| |sx mx ex]; unfold SF64div, SFdiv;
    try discriminate; [congruence|].
  destruct (SFdiv_core_binary prec emax (Z.pos mx) ex (Z.pos m) e) as [[mz ez] lz] eqn:Hcore.
  apply binary_round_aux_not_nan.
  unfold SFdiv_core_binary in Hcore.
  set (m' := match _ with Z.pos _ => _ | Z0 => _ | Z.neg _ => _ end) in Hcore.
  assert (0 ≤ m')%Z as Hm'.
  { unfold m'. destruct (_ - _ - _)%Z; try lia. apply Z.shiftl_nonneg. lia. }
  pose proof (Z.div_eucl_eq m' (Z.pos m) ltac:(lia)) as Heq.
  pose proof (Z.mod_pos_bound m' (Z.pos m) ltac:(lia)) as Hmod.
  unfold Z.modulo in Hmod.
  destruct (Z.div_eucl m' (Z.pos m)) as [q r]. injection Hcore as <- _ _.
  nia.
Qed.

Lemma SFabs_not_nan x : x ≠ S754_nan → SFabs x ≠ S754_nan.
Proof. destruct x; simpl; congruence. Qed.

(** The gap of two finite prices, in pips of a finite non-zero size, is a number. *)
Lemma gap_not_nan (a b pip : float) s m e :
  is_finite a = true → is_finite b = true → Prim2SF pip = S754_finite s m e →
  is_nan (abs (a - b) / pip) = false.
Proof.
  intros Ha Hb Hpip. rewrite is_nan_false, div_spec, abs_spec, sub_spec.
  eapply SFdiv_number; [|exact Hpip].
  apply SFabs_not_nan, SFsub_number; by apply is_finite_number.
Qed.

(** Equal finite prices have the difference zero. *)
Lemma sub_eqb_zero (a b : float) :
  is_finite a = true → (a =? b) = true → (a - b =? 0) = true.
Proof.
  intros Ha Heq. apply is_finite_number in Ha.
  rewrite FloatAxioms.eqb_spec in Heq. rewrite FloatAxioms.eqb_spec, sub_spec.
  change (Prim2SF 0) with (S754_zero false).
  unfold SFeqb in Heq.
  destruct Ha as [sa|sa ma ea], (Prim2SF b) as [sb|sb| |sb mb eb]; simpl in Heq;
    try discriminate; try (destruct sa; discriminate); try (destruct sb; discriminate).
  - destruct sa, sb; reflexivity.
  - destruct sa, sb; try discriminate;
      destruct (Z.compare_spec ea eb) as [->| |]; try discriminate;
      destruct (Pos.compare_cont Eq ma mb) eqn:Hm; try discriminate;
      apply Pos.compare_eq in Hm; subst mb;
      unfold SF64sub, SFsub; rewrite Z.sub_diag; reflexivity.
Qed.

End Float_order.

(** ** How the statements run *)

Section Runs.
Context (py : textlib).
Implicit Types (st : store) (w : world) (e : row).

Lemma bind_lift_inr {A B} (r : result A) (x : A) (k : A → M B) st :
  r = inr x → (lift r ≫= k) st = k x st.
Proof. intros ->. reflexivity. Qed.

(** With two candles and both prices read, [check_gap] is its threshold
    test followed by the notification and the append. *)
Lemma check_gap_run w pair tf st n curr_open prev_close :
  let candles := get_candles w pair tf 2 in
  let gap_pips := (abs (curr_open - prev_close) / check_gap_pip_value pair)%float in
  let direction := if (prev_close <? curr_open)%float then "GAP UP" else "GAP DOWN" in
  let rsi := get_rsi py w pair tf in
  py_len candles = inr n → (2 ≤ n)%Z →
  price py candles 0 "open" = inr curr_open →
  price py candles 1 "close" = inr prev_close →
  check_gap py w pair tf st =
    if (gap_pips <? 20)%float then (inr tt, st)
    else (inr tt,
          {| sheet := sheet st ++
               [{| Timestamp := strftime py (utcnow w); Pair := pair; TF := tf;
                   Gap_pips := format_1f py gap_pips; RSI := rsi_text py rsi;
                   Direction := direction; Suggestion := suggestion_for direction rsi;
                   Outcome := "Pending"; ChartURL := build_chart_url pair tf |}];
             posted := posted st ++
               [strip (message_text direction pair tf (format_1f py gap_pips)
                         (rsi_text py rsi) (suggestion_for direction rsi)
                         (build_chart_url pair tf))] |}).
Proof.
  intros candles gap_pips direction rsi Hlen Hn Hopen Hclose.
  unfold check_gap. fold candles.
  rewrite (bind_lift_inr _ n) by exact Hlen.
  destruct (Z.ltb_spec n 2) as [|_]; [lia|].
  rewrite (bind_lift_inr _ curr_open) by exact Hopen.
  rewrite (bind_lift_inr _ prev_close) by exact Hclose.
  fold gap_pips. unfold MIN_GAP_PIPS.
  destruct (gap_pips <? 20)%float; reflexivity.
Qed.

(** *** One iteration of the sweep *)

Lemma update_cell_other r c v st j :
  r ≠ j + 2 → sheet (update_cell r c v st).2 !! j = sheet st !! j.
Proof.
  intros Hr. unfold update_cell; simpl.
  destruct r as [|[|i]]; try reflexivity.
  apply list_lookup_alter_ne. lia.
Qed.

Lemma update_cell_same c v st j e :
  sheet st !! j = Some e →
  sheet (update_cell (j + 2) c v st).2 !! j = Some (set_cell c v e).
Proof.
  intros He. unfold update_cell; simpl.
  replace (j + 2) with (S (S j)) by lia.
  rewrite list_lookup_alter_eq, He. reflexivity.
Qed.

(** An iteration leaves the store as it is, or returns after writing one of
    the two outcomes into column 8 of its row, which was pending. *)
Lemma update_outcomes_body_cases w idx e st :
  (update_outcomes_body py w idx e st).2 = st ∨
  (Outcome e = "Pending" ∧
   ∃ v, (v = "Filled ✅" ∨ v = "Not Filled ❌") ∧
        update_outcomes_body py w idx e st = update_cell idx 8 v st).
Proof.
  unfold update_outcomes_body.
  destruct (String.eqb_spec (Outcome e) "Pending") as [Hp|Hp]; simpl; [|left; reflexivity].
  unfold mbind, M_bind, lift.
  repeat (case_match; simplify_eq; try (left; reflexivity));
    right; split; try assumption; eexists; split; try reflexivity; auto.
Qed.

(** The iterations that change nothing: a record that is not pending, one
    that is too young, one whose direction is neither of the two. *)
Lemma update_outcomes_body_settled w idx e st :
  Outcome e ≠ "Pending" → update_outcomes_body py w idx e st = (inr tt, st).
Proof.
  intros Hp. unfold update_outcomes_body.
  destruct (String.eqb_spec (Outcome e) "Pending"); [contradiction | reflexivity].
Qed.

Lemma update_outcomes_body_young w idx e st t :
  strptime py (Timestamp e) = Some t →
  (utcnow w - t < wait_time_for (TF e) * 1000000)%Z →
  (update_outcomes_body py w idx e st).2 = st.
Proof.
  intros Ht Hage. unfold update_outcomes_body.
  destruct (String.eqb (Outcome e) "Pending"); simpl; [|reflexivity].
  unfold mbind, M_bind, lift. rewrite Ht. simpl.
  destruct (float_of_str py (Gap_pips e)); simpl; [|reflexivity].
  unfold age_lt.
  destruct (Z.ltb_spec (utcnow w - t) (wait_time_for (TF e) * 1000000)); [reflexivity | lia].
Qed.

Lemma update_outcomes_body_no_direction w idx e st :
  Direction e ≠ "GAP UP" → Direction e ≠ "GAP DOWN" →
  (update_outcomes_body py w idx e st).2 = st.
Proof.
  intros Hup Hdown. unfold update_outcomes_body.
  destruct (String.eqb_spec (Direction e) "GAP UP"); [contradiction|].
  destruct (String.eqb_spec (Direction e) "GAP DOWN"); [contradiction|].
  unfold mbind, M_bind, lift.
  repeat (case_match; simplify_eq; try reflexivity).
Qed.

(** An iteration touches no row but its own, and posts nothing. *)
Lemma update_outcomes_body_other_rows w idx e st j :
  idx ≠ j + 2 → sheet (update_outcomes_body py w idx e st).2 !! j = sheet st !! j.
Proof.
  intros Hj. destruct (update_outcomes_body_cases w idx e st) as [->|(_ & v & _ & ->)];
    [reflexivity | by apply update_cell_other].
Qed.

Lemma update_outcomes_body_posted w idx e st :
  posted (update_outcomes_body py w idx e st).2 = posted st.
Proof.
  destruct (update_outcomes_body_cases w idx e st) as [->|(_ & v & _ & ->)]; reflexivity.
Qed.

(** With the record pending and old enough, and a candle read, an iteration
    is the comparison against the expected fill. *)
Lemma update_outcomes_body_run w e gap_pips occured_at n open_price curr_price idx st :
  let candles := get_candles w (Pair e) (TF e) 1 in
  let pip_value := update_outcomes_pip_value (Pair e) in
  Outcome e = "Pending" →
  float_of_str py (Gap_pips e) = Some gap_pips →
  strptime py (Timestamp e) = Some occured_at →
  (wait_time_for (TF e) * 1000000 ≤ utcnow w - occured_at)%Z →
  py_len candles = inr n → (1 ≤ n)%Z →
  price py candles 0 "open" = inr open_price →
  price py candles 0 "close" = inr curr_price →
  update_outcomes_body py w idx e st =
    if String.eqb (Direction e) "GAP UP" then
      if (curr_price <=? open_price - gap_pips * pip_value)%float
      then update_cell idx 8 "Filled ✅" st
      else update_cell idx 8 "Not Filled ❌" st
    else if String.eqb (Direction e) "GAP DOWN" then
      if (open_price + gap_pips * pip_value <=? curr_price)%float
      then update_cell idx 8 "Filled ✅" st
      else update_cell idx 8 "Not Filled ❌" st
    else (inr tt, st).
Proof.
  intros candles pip_value Hp Hgap Ht Hage Hlen Hn Hopen Hclose.
  unfold update_outcomes_body. rewrite Hp.
  change (negb (String.eqb "Pending" "Pending")) with false. cbv iota.
  unfold py_float. rewrite Hgap, Ht.
  rewrite (bind_lift_inr _ gap_pips) by reflexivity.
  rewrite (bind_lift_inr _ occured_at) by reflexivity.
  unfold age_lt.
  destruct (Z.ltb_spec (utcnow w - occured_at) (wait_time_for (TF e) * 1000000)); [lia|].
  fold candles. rewrite (bind_lift_inr _ n) by exact Hlen.
  destruct (Z.ltb_spec n 1); [lia|].
  rewrite (bind_lift_inr _ open_price) by exact Hopen.
  rewrite (bind_lift_inr _ curr_price) by exact Hclose.
  fold pip_value.
  destruct (String.eqb (Direction e) "GAP UP").
  - destruct (curr_price <=? open_price - gap_pips * pip_value)%float; reflexivity.
  - destruct (String.eqb (Direction e) "GAP DOWN"); [|reflexivity].
    destruct (open_price + gap_pips * pip_value <=? curr_price)%float; reflexivity.
Qed.

(** *** The sweep *)

Section Sweep.
Context (later : nat → world).

Let body : nat * row → M unit :=
  λ '(idx, entry), update_outcomes_body py (later idx) idx entry.

Lemma update_outcomes_loop st :
  update_outcomes py later st = for_in (enumerate 2 (sheet st)) body st.
Proof. reflexivity. Qed.

Lemma sweep_step start x rest st :
  for_in (enumerate start (x :: rest)) body st =
    match update_outcomes_body py (later start) start x st with
    | (inl ex, st1) => (inl ex, st1)
    | (inr _, st1) => for_in (enumerate (S start) rest) body st1
    end.
Proof. reflexivity. Qed.

(** The sweep leaves row [j] as it is when the iteration for that row, if
    there is one, changes nothing. *)
Lemma sweep_keeps rows start st j :
  (∀ k x, rows !! k = Some x → start + k = j + 2 →
          ∀ st0, (update_outcomes_body py (later (j + 2)) (j + 2) x st0).2 = st0) →
  sheet (for_in (enumerate start rows) body st).2 !! j = sheet st !! j.
Proof.
  revert start st. induction rows as [|x rest IH]; intros start st Hkeep; [reflexivity|].
  rewrite sweep_step.
  assert (sheet (update_outcomes_body py (later start) start x st).2 !! j = sheet st !! j) as Hj.
  { destruct (decide (start = j + 2)) as [->|Hne].
    - rewrite (Hkeep 0 x); [reflexivity.. | lia].
    - by apply update_outcomes_body_other_rows. }
  destruct (update_outcomes_body py (later start) start x st) as [[ex|u] st1]; simpl in Hj |- *;
    [exact Hj|].
  rewrite IH; [exact Hj|].
  intros k x' Hk Hidx. apply (Hkeep (S k) x'); [exact Hk | lia].
Qed.

Lemma sweep_posted rows start st :
  posted (for_in (enumerate start rows) body st).2 = posted st.
Proof.
  revert start st. induction rows as [|x rest IH]; intros start st; [reflexivity|].
  rewrite sweep_step.
  pose proof (update_outcomes_body_posted (later start) start x st) as Hp.
  destruct (update_outcomes_body py (later start) start x st) as [[ex|u] st1]; simpl in Hp |- *;
    [exact Hp|].
  by rewrite IH.
Qed.

(** A sweep that completes has written [v] into row [j] when the iteration
    for that row writes [v]. *)
Lemma sweep_writes rows start st st' j k x e v :
  for_in (enumerate start rows) body st = (inr tt, st') →
  rows !! k = Some x → start + k = j + 2 →
  sheet st !! j = Some e →
  (∀ st0, update_outcomes_body py (later (j + 2)) (j + 2) x st0 = update_cell (j + 2) 8 v st0) →
  sheet st' !! j = Some (set_cell 8 v e).
Proof.
  revert start st k. induction rows as [|y rest IH]; intros start st k Hrun Hk Hidx He Hw;
    [discriminate|].
  rewrite sweep_step in Hrun.
  destruct k as [|k]; simpl in Hk.
  - simplify_eq. replace start with (j + 2) in * by lia.
    rewrite Hw in Hrun.
    pose proof (update_cell_same 8 v st j e He) as Hcell.
    assert ((update_cell (j + 2) 8 v st).1 = inr tt) as Hr by reflexivity.
    destruct (update_cell (j + 2) 8 v st) as [r1 st1]. simpl in Hcell, Hr. subst r1.
    pose proof (sweep_keeps rest (S (j + 2)) st1 j) as Hrest.
    rewrite Hrun in Hrest. simpl in Hrest. rewrite Hrest; [exact Hcell | intros; lia].
  - pose proof (update_outcomes_body_other_rows (later start) start y st j) as Hj.
    destruct (update_outcomes_body py (later start) start y st) as [[ex|u] st1]; [discriminate|].
    simpl in Hj. apply (IH (S start) st1 k); try assumption; [lia|].
    rewrite Hj; [exact He | lia].
Qed.

(** Whatever the sweep does, row [j] ends as it was or, if it was pending,
    with one of the two outcomes in column 8. *)
Lemma sweep_row rows start st j e :
  sheet st !! j = Some e →
  (∀ k x, rows !! k = Some x → start + k = j + 2 → x = e) →
  let st' := (for_in (enumerate start rows) body st).2 in
  sheet st' !! j = Some e ∨
  (Outcome e = "Pending" ∧
   (sheet st' !! j = Some (set_cell 8 "Filled ✅" e) ∨
    sheet st' !! j = Some (set_cell 8 "Not Filled ❌" e))).
Proof.
  revert start st. induction rows as [|y rest IH]; intros start st He Hsame; [by left|].
  cbv zeta in IH |- *. rewrite sweep_step.
  destruct (decide (start = j + 2)) as [->|Hne].
  - assert (y = e) as -> by (apply (Hsame 0); [reflexivity | lia]).
    pose proof (λ st1, sweep_keeps rest (S (j + 2)) st1 j) as Hrest.
    destruct (update_outcomes_body_cases (later (j + 2)) (j + 2) e st) as [Hst|(Hp & v & Hv & Hrun)].
    + left. destruct (update_outcomes_body py (later (j + 2)) (j + 2) e st) as [[ex|u] st1];
        simpl in Hst; subst st1; [exact He|].
      rewrite Hrest; [exact He | intros; lia].
    + right. split; [exact Hp|]. rewrite Hrun.
      pose proof (update_cell_same 8 v st j e He) as Hcell.
      assert ((update_cell (j + 2) 8 v st).1 = inr tt) as Hr by reflexivity.
      destruct (update_cell (j + 2) 8 v st) as [r1 st1]. simpl in Hcell, Hr. subst r1.
      rewrite Hrest by (intros; lia). rewrite Hcell.
      destruct Hv as [->| ->]; [by left | by right].
  - pose proof (update_outcomes_body_other_rows (later start) start y st j Hne) as Hj.
    destruct (update_outcomes_body py (later start) start y st) as [[ex|u] st1]; simpl in Hj.
    + left. simpl. by rewrite Hj.
    + apply IH; [by rewrite Hj|].
      intros k x Hk Hidx. apply (Hsame (S k)); [exact Hk | lia].
Qed.

End Sweep.

End Runs.

(** *** Detection and whole runs *)

Section Cycles.
Context (py : textlib).
Implicit Types (st : store) (w : world) (e : row).

(** [check_gap] leaves the store as it is or appends one pending row and
    posts one message. *)
Lemma check_gap_cases w pair tf st :
  (check_gap py w pair tf st).2 = st ∨
  ∃ ev msg, check_gap py w pair tf st =
              (inr tt, {| sheet := sheet st ++ [ev]; posted := posted st ++ [msg] |})
            ∧ Outcome ev = "Pending".
Proof.
  unfold check_gap, mbind, M_bind, lift, send_to_telegram, append_row.
  repeat (case_match; simplify_eq; try (left; reflexivity));
    right; do 2 eexists; split; reflexivity.
Qed.

Lemma check_gap_keeps_rows w pair tf st j e :
  sheet st !! j = Some e → sheet (check_gap py w pair tf st).2 !! j = Some e.
Proof.
  intros He. destruct (check_gap_cases w pair tf st) as [->|(ev & msg & -> & _)]; [exact He|].
  simpl. by apply lookup_app_l_Some.
Qed.

(** A property of the store kept by every iteration of a loop is kept by
    the loop. *)
Lemma for_in_keeps {A} (P : store → Prop) (l : list A) (body : A → M unit) st :
  (∀ x st0, P st0 → P (body x st0).2) → P st → P (for_in l body st).2.
Proof.
  intros Hbody. revert st. induction l as [|x rest IH]; intros st HP; [exact HP|].
  simpl. unfold mbind, M_bind. specialize (Hbody x st HP).
  destruct (body x st) as [[ex|u] st1]; simpl in Hbody |- *; [exact Hbody | by apply IH].
Qed.

(** A row on which no iteration of the sweep writes stays as it is through
    every run of the bot. *)
Lemma run_bot_keeps market later st j e :
  (∀ w idx st0, (update_outcomes_body py w idx e st0).2 = st0) →
  sheet st !! j = Some e →
  sheet (run_bot py market later st).2 !! j = Some e.
Proof.
  intros Hkeep He. unfold run_bot.
  set (detect := for_in PAIR_LIST _).
  assert (sheet (detect st).2 !! j = Some e) as Hdetect.
  { apply (for_in_keeps (λ s, sheet s !! j = Some e)); [|exact He].
    intros pair st0 H0. apply (for_in_keeps (λ s, sheet s !! j = Some e)); [|exact H0].
    intros tf st2 H2. by apply check_gap_keeps_rows. }
  unfold mbind, M_bind.
  destruct (detect st) as [[ex|u] st1]; cbn [snd] in Hdetect |- *; [exact Hdetect|].
  rewrite update_outcomes_loop, sweep_keeps; [exact Hdetect|].
  intros k x Hk Hidx st0.
  assert (x = e) as ->; [|apply Hkeep].
  replace k with j in Hk by lia. congruence.
Qed.

Lemma run_cycles_keeps cycles st j e :
  (∀ w idx st0, (update_outcomes_body py w idx e st0).2 = st0) →
  sheet st !! j = Some e →
  sheet (run_cycles py cycles st) !! j = Some e.
Proof.
  intros Hkeep. revert st. induction cycles as [|[market later] rest IH]; intros st He;
    [exact He|].
  simpl. apply IH. by apply run_bot_keeps.
Qed.

(** No reading of the RSI when the endpoint is out of reach. *)
Lemma get_rsi_out_of_reach w pair tf :
  rsi_series w pair tf = None → get_rsi py w pair tf = None.
Proof. intros H. unfold get_rsi. rewrite H. reflexivity. Qed.

(** No data is no event: an endpoint out of reach, or an answer without
    [values], ends [check_gap] at once. *)
Lemma check_gap_no_data w pair tf st :
  (time_series w pair tf 2 = None ∨
   ∃ d, time_series w pair tf 2 = Some (PDict d) ∧ d !! "values" = None) →
  check_gap py w pair tf st = (inr tt, st).
Proof.
  intros [Hnone|(d & Hd & Hvalues)]; unfold check_gap, get_candles;
    [rewrite Hnone | rewrite Hd; simpl; rewrite Hvalues]; reflexivity.
Qed.

(** Away from zero the suggestion logic is the specification's table. *)
Lemma suggestion_for_spec d rsi :
  (∀ r, rsi = Some r → float_truth r = true) →
  suggestion_for (direction_text d) rsi = spec_suggestion d rsi.
Proof.
  intros Hr. destruct rsi as [r|]; [|by destruct d].
  unfold suggestion_for, spec_suggestion, rsi_and. rewrite (Hr r eq_refl).
  destruct d; reflexivity.
Qed.

End Cycles.

(** ** The scenarios of the specification *)

Section Scenarios.
Import Scenario.

(** Scenario 1: thirty pips up on GBP/USD, an event. *)
Example scenario_1 :
  (λ ev, (Pair ev, Gap_pips ev, Direction ev, Outcome ev)) <$>
    sheet (check_gap Sample.textlib gap_up "GBP/USD" "4h" no_store).2 =
    [("GBP/USD", "30.0", "GAP UP", "Pending")].
Proof. vm_compute. reflexivity. Qed.

(** Scenario 2: fifteen pips on USD/JPY, no event. *)
Example scenario_2 :
  check_gap Sample.textlib yen_gap "USD/JPY" "4h" no_store = (inr tt, no_store).
Proof. vm_compute. reflexivity. Qed.

(** Scenario 3: seven hours on, a close at 1.2970 under the expected fill
    1.2975. *)
Example scenario_3 :
  update_outcomes Sample.textlib (revisit "1.2970" seven_o_clock)
    {| sheet := [logged "GAP UP" "Pending"]; posted := [] |} =
    (inr tt, {| sheet := [logged "GAP UP" "Filled ✅"]; posted := [] |}).
Proof. vm_compute. reflexivity. Qed.

(** Scenario 4: a close at 1.2980 above it. *)
Example scenario_4 :
  update_outcomes Sample.textlib (revisit "1.2980" seven_o_clock)
    {| sheet := [logged "GAP UP" "Pending"]; posted := [] |} =
    (inr tt, {| sheet := [logged "GAP UP" "Not Filled ❌"]; posted := [] |}).
Proof. vm_compute. reflexivity. Qed.

(** Scenario 5: three hours on, the row waits. *)
Example scenario_5 :
  update_outcomes Sample.textlib (revisit "1.2970" three_o_clock)
    {| sheet := [logged "GAP UP" "Pending"]; posted := [] |} =
    (inr tt, {| sheet := [logged "GAP UP" "Pending"]; posted := [] |}).
Proof. vm_compute. reflexivity. Qed.

End Scenarios.

(** ** The claims *)

Lemma is_nan_20 : is_nan 20 = false.
Proof. reflexivity. Qed.

(** The gap of two finite prices is a number, whatever the pair. *)
Lemma gap_pips_number (pair : string) (curr_open prev_close : float) :
  is_finite curr_open = true → is_finite prev_close = true →
  is_nan (abs (curr_open - prev_close) / check_gap_pip_value pair) = false.
Proof.
  intros Ho Hc. unfold check_gap_pip_value.
  destruct (str_in "JPY" pair); simpl; eapply gap_not_nan; try eassumption; reflexivity.
Qed.

(** C1, as the code computes it. With at least two candles read,
    [check_gap] logs an event exactly when the gap it computes in binary64,
    [abs(curr.open - prev.close) / pip] with the pip 0.01 when JPY occurs in
    the pair and 0.0001 otherwise, is at least 20: a computed gap below 20
    returns with no effect and no error, a computed gap equal to 20 logs,
    and the row carries the computed gap. The computed gap is a number (the
    prices of a candle are decimals, so it is no NaN); it is the gap of the
    decimals up to rounding. *)
Theorem check_gap_threshold (py : textlib) (w : world) (pair tf : string) (st : store)
    (n : Z) (curr_open prev_close : float) :
  let candles := get_candles w pair tf 2 in
  let pip := (if str_in "JPY" pair then 0.01 else 0.0001)%float in
  let gap_pips := (abs (curr_open - prev_close) / pip)%float in
  let logged :=
    ∃ ev msg, check_gap py w pair tf st =
                (inr tt, {| sheet := sheet st ++ [ev]; posted := posted st ++ [msg] |})
              ∧ Outcome ev = "Pending" ∧ Gap_pips ev = format_1f py gap_pips in
  py_len candles = inr n → (2 ≤ n)%Z →
  price py candles 0 "open" = inr curr_open →
  price py candles 1 "close" = inr prev_close →
  is_nan gap_pips = false →
  (logged ↔ (20 <=? gap_pips)%float = true) ∧
  ((gap_pips <? 20)%float = true → check_gap py w pair tf st = (inr tt, st)) ∧
  ((gap_pips =? 20)%float = true → logged).
Proof.
  intros candles pip gap_pips logged Hlen Hn Hopen Hclose Hnan.
  pose proof (check_gap_run py w pair tf st n curr_open prev_close Hlen Hn Hopen Hclose)
    as Hrun. cbv zeta in Hrun.
  assert (check_gap_pip_value pair = pip) as Hpip
    by (unfold check_gap_pip_value, pip; destruct (str_in "JPY" pair); reflexivity).
  rewrite Hpip in Hrun. fold gap_pips in Hrun.
  pose proof (ltb_negb_leb gap_pips 20 Hnan is_nan_20) as Hord.
  assert ((gap_pips <? 20)%float = false → logged) as Hlog.
  { intros Hlt. rewrite Hlt in Hrun. unfold logged. rewrite Hrun.
    do 2 eexists. repeat split. }
  assert ((gap_pips <? 20)%float = true → ¬ logged) as Hskip.
  { intros Hlt (ev & msg & Hev & _). rewrite Hlt in Hrun. rewrite Hrun in Hev.
    apply (f_equal (λ r, length (sheet r.2))) in Hev. simpl in Hev.
    rewrite length_app in Hev. simpl in Hev. lia. }
  repeat split.
  - intros Hl. destruct (20 <=? gap_pips)%float; [reflexivity|].
    exfalso. by apply Hskip.
  - intros Hge. apply Hlog. rewrite Hord, Hge. reflexivity.
  - intros Hlt. rewrite Hlt in Hrun. exact Hrun.
  - intros Heq. apply Hlog. rewrite Hord, (eqb_leb gap_pips 20 Heq). reflexivity.
Qed.

Lemma check_gap_threshold_witness :
  ∃ ev msg,
    check_gap Sample.textlib Scenario.gap_up "GBP/USD" "4h" Scenario.no_store =
      (inr tt, {| sheet := [ev]; posted := [msg] |})
    ∧ Outcome ev = "Pending" ∧ Gap_pips ev = "30.0".
Proof.
  refine (proj2 (proj1 (check_gap_threshold Sample.textlib Scenario.gap_up "GBP/USD" "4h"
            Scenario.no_store 2 1.25 1.247 _ _ _ _ _)) _);
    try (vm_compute; reflexivity); lia.
Defined.

(** C1 as stated fails on a gap of exactly twenty pips. USD/JPY opening at
    150.20 after a close at 150.00 is twenty pips apart in decimals; in
    binary64 the gap comes to 19.999999999998863, and [check_gap] logs
    nothing. *)
Lemma check_gap_twenty_pips_rounded :
  Decimal.gap_pips "150.20" "150.00" "USD/JPY" = Some (QArith_base.Qmake 20 1) ∧
  (abs (150.20 - 150.00) / 0.01 <? 20)%float = true ∧
  price Sample.textlib (get_candles Boundary.twenty_pips "USD/JPY" "4h" 2) 0 "open" =
    inr 150.20%float ∧
  price Sample.textlib (get_candles Boundary.twenty_pips "USD/JPY" "4h" 2) 1 "close" =
    inr 150.00%float ∧
  check_gap Sample.textlib Boundary.twenty_pips "USD/JPY" "4h" Scenario.no_store =
    (inr tt, Scenario.no_store).
Proof. repeat split; vm_compute; reflexivity. Qed.

(** C9. An event logged by [check_gap] has direction GAP UP when
    [curr.open > prev.close] and GAP DOWN otherwise; and a zero difference
    [curr.open - prev.close], which is what equal finite prices have, makes
    [gap_pips] zero, below the threshold, so that nothing is logged. *)
Theorem check_gap_direction (py : textlib) (w : world) (pair tf : string) (st : store)
    (n : Z) (curr_open prev_close : float) :
  let candles := get_candles w pair tf 2 in
  let gap_pips := (abs (curr_open - prev_close) / check_gap_pip_value pair)%float in
  py_len candles = inr n → (2 ≤ n)%Z →
  price py candles 0 "open" = inr curr_open →
  price py candles 1 "close" = inr prev_close →
  (∀ ev msg,
     check_gap py w pair tf st =
       (inr tt, {| sheet := sheet st ++ [ev]; posted := posted st ++ [msg] |}) →
     Direction ev = if (prev_close <? curr_open)%float then "GAP UP" else "GAP DOWN") ∧
  ((curr_open - prev_close =? 0)%float = true →
     gap_pips = 0%float ∧ check_gap py w pair tf st = (inr tt, st)) ∧
  (is_finite curr_open = true → (curr_open =? prev_close)%float = true →
     (curr_open - prev_close =? 0)%float = true).
Proof.
  intros candles gap_pips Hlen Hn Hopen Hclose.
  pose proof (check_gap_run py w pair tf st n curr_open prev_close Hlen Hn Hopen Hclose)
    as Hrun. cbv zeta in Hrun. fold gap_pips in Hrun.
  split; [|split; [|apply sub_eqb_zero]].
  - intros ev msg Hev. rewrite Hrun in Hev.
    destruct (gap_pips <? 20)%float.
    + apply (f_equal (λ r, length (sheet r.2))) in Hev. simpl in Hev.
      rewrite length_app in Hev. simpl in Hev. lia.
    + apply (f_equal (λ r, sheet r.2)) in Hev. simpl in Hev.
      apply app_inv_head in Hev. injection Hev as <-. reflexivity.
  - intros Hzero.
    assert (gap_pips = 0%float) as Hgap.
    { unfold gap_pips, check_gap_pip_value.
      destruct (eqb_zero _ Hzero) as [-> | ->]; destruct (str_in "JPY" pair); reflexivity. }
    split; [exact Hgap|]. rewrite Hrun, Hgap. reflexivity.
Qed.

Lemma check_gap_direction_witness :
  Direction <$>
    sheet (check_gap Sample.textlib Scenario.gap_up "GBP/USD" "4h" Scenario.no_store).2 =
    ["GAP UP"].
Proof.
  assert (∃ ev msg,
            check_gap Sample.textlib Scenario.gap_up "GBP/USD" "4h" Scenario.no_store =
              (inr tt, {| sheet := [ev]; posted := [msg] |})) as (ev & msg & Hrun)
    by (vm_compute; do 2 eexists; reflexivity).
  rewrite Hrun. simpl. f_equal.
  refine (proj1 (check_gap_direction Sample.textlib Scenario.gap_up "GBP/USD" "4h"
            Scenario.no_store 2 1.25 1.247 _ _ _ _) ev msg Hrun);
    try (vm_compute; reflexivity); lia.
Defined.

(** C8. With a gap of at least 20 pips and no RSI to be had, [check_gap]
    still posts the message and appends the event, every column filled, the
    outcome pending, the RSI written as N/A; the suggestion is the one of
    the direction alone, the overbought and the oversold test both failing. *)
Theorem check_gap_without_rsi (py : textlib) (w : world) (pair tf : string) (st : store)
    (n : Z) (curr_open prev_close : float) :
  let candles := get_candles w pair tf 2 in
  let gap_pips := (abs (curr_open - prev_close) / check_gap_pip_value pair)%float in
  let up := (prev_close <? curr_open)%float in
  let direction := if up then "GAP UP" else "GAP DOWN" in
  let suggestion :=
    if up then "GAP UP. Wait for structure." else "GAP DOWN. Wait for confirmation." in
  py_len candles = inr n → (2 ≤ n)%Z →
  price py candles 0 "open" = inr curr_open →
  price py candles 1 "close" = inr prev_close →
  (20 <=? gap_pips)%float = true →
  get_rsi py w pair tf = None →
  check_gap py w pair tf st =
    (inr tt,
     {| sheet := sheet st ++
          [{| Timestamp := strftime py (utcnow w); Pair := pair; TF := tf;
              Gap_pips := format_1f py gap_pips; RSI := "N/A";
              Direction := direction; Suggestion := suggestion;
              Outcome := "Pending"; ChartURL := build_chart_url pair tf |}];
        posted := posted st ++
          [strip (message_text direction pair tf (format_1f py gap_pips) "N/A"
                    suggestion (build_chart_url pair tf))] |})
  ∧ rsi_and None (λ r, 70 <? r)%float = false
  ∧ rsi_and None (λ r, r <? 30)%float = false.
Proof.
  intros candles gap_pips up direction suggestion Hlen Hn Hopen Hclose Hge Hrsi.
  pose proof (check_gap_run py w pair tf st n curr_open prev_close Hlen Hn Hopen Hclose)
    as Hrun. cbv zeta in Hrun. fold gap_pips up direction in Hrun.
  destruct (leb_not_nan _ _ Hge) as [Hnan _].
  rewrite (ltb_negb_leb gap_pips 20 Hnan is_nan_20), Hge, Hrsi in Hrun.
  split; [|split; reflexivity].
  rewrite Hrun. unfold direction, suggestion. destruct up; reflexivity.
Qed.

Lemma check_gap_without_rsi_witness :
  sheet (check_gap Sample.textlib Scenario.gap_up_no_rsi "GBP/USD" "4h" Scenario.no_store).2 =
    [{| Timestamp := "2024-05-01 07:00:00"; Pair := "GBP/USD"; TF := "4h";
        Gap_pips := "30.0"; RSI := "N/A"; Direction := "GAP UP";
        Suggestion := "GAP UP. Wait for structure."; Outcome := "Pending";
        ChartURL := "https://www.tradingview.com/chart/?symbol=FX:GBPUSD&interval=240" |}].
Proof.
  rewrite (proj1 (check_gap_without_rsi Sample.textlib Scenario.gap_up_no_rsi "GBP/USD" "4h"
             Scenario.no_store 2 1.25 1.247 eq_refl ltac:(lia) eq_refl eq_refl eq_refl eq_refl)).
  vm_compute. reflexivity.
Defined.

(** A sweep that no row above row [j] stops writes [v] into row [j] when
    the iteration for that row writes [v], whatever the rows below it do. *)
Lemma sweep_reaches (py : textlib) (later : nat → world) (rows : list row)
    (start : nat) (st : store) (j k : nat) (x e : row) (v : string) :
  rows !! k = Some x → start + k = j + 2 →
  (∀ k' y st0, (k' < k)%nat → rows !! k' = Some y →
     (update_outcomes_body py (later (start + k')) (start + k') y st0).1 = inr tt) →
  sheet st !! j = Some e →
  (∀ st0, update_outcomes_body py (later (j + 2)) (j + 2) x st0 =
          update_cell (j + 2) 8 v st0) →
  sheet (for_in (enumerate start rows)
           (λ '(idx, entry), update_outcomes_body py (later idx) idx entry) st).2 !! j =
    Some (set_cell 8 v e).
Proof.
  revert start st k. induction rows as [|y rest IH];
    intros start st k Hk Hidx Habove He Hw; [discriminate|].
  rewrite sweep_step. destruct k as [|k]; simpl in Hk.
  - simplify_eq. replace start with (j + 2) by lia. rewrite Hw.
    pose proof (update_cell_same 8 v st j e He) as Hcell.
    assert ((update_cell (j + 2) 8 v st).1 = inr tt) as Hr by reflexivity.
    destruct (update_cell (j + 2) 8 v st) as [r1 st1]. simpl in Hcell, Hr. subst r1.
    rewrite sweep_keeps; [exact Hcell | intros; lia].
  - pose proof (Habove 0 y st ltac:(lia) eq_refl) as Hy.
    replace (start + 0) with start in Hy by lia.
    pose proof (update_outcomes_body_other_rows py (later start) start y st j) as Hj.
    destruct (update_outcomes_body py (later start) start y st) as [[ex|u] st1];
      [discriminate|]. simpl in Hj.
    apply (IH (S start) st1 k); try assumption; [lia | | rewrite Hj; [exact He | lia]].
    intros k' y' st0 Hk' Hy'.
    replace (S start + k') with (start + S k') by lia.
    apply Habove; [lia | exact Hy'].
Qed.

(** C3, as the code computes it. A pending row that is old enough, for
    which a candle is read, and above which no row stops the sweep gets its
    outcome from one comparison of binary64 numbers, equality included: for
    GAP UP it is filled exactly when the close is at most the expected fill
    [open - gap_pips * pip] as the floats give it, for GAP DOWN exactly when
    the close is at least [open + gap_pips * pip], and not filled otherwise;
    the pip is 0.01 when JPY occurs in the pair and 0.0001 otherwise. The
    rows below may stop the sweep or not. *)
Theorem update_outcomes_fill (py : textlib) (later : nat → world) (st : store)
    (j : nat) (e : row) (gap_pips : float) (occured_at n : Z)
    (open_price curr_price : float) :
  let w := later (j + 2) in
  let candles := get_candles w (Pair e) (TF e) 1 in
  let pip := (if str_in "JPY" (Pair e) then 0.01 else 0.0001)%float in
  let st' := (update_outcomes py later st).2 in
  sheet st !! j = Some e →
  Outcome e = "Pending" →
  float_of_str py (Gap_pips e) = Some gap_pips →
  strptime py (Timestamp e) = Some occured_at →
  (wait_time_for (TF e) * 1000000 ≤ utcnow w - occured_at)%Z →
  py_len candles = inr n → (1 ≤ n)%Z →
  price py candles 0 "open" = inr open_price →
  price py candles 0 "close" = inr curr_price →
  (∀ i x st0, (i < j)%nat → sheet st !! i = Some x →
     (update_outcomes_body py (later (i + 2)) (i + 2) x st0).1 = inr tt) →
  (Direction e = "GAP UP" →
     let expected_fill := (open_price - gap_pips * pip)%float in
     sheet st' !! j =
       Some (set_cell 8 (if (curr_price <=? expected_fill)%float
                         then "Filled ✅" else "Not Filled ❌") e)) ∧
  (Direction e = "GAP DOWN" →
     let expected_fill := (open_price + gap_pips * pip)%float in
     sheet st' !! j =
       Some (set_cell 8 (if (expected_fill <=? curr_price)%float
                         then "Filled ✅" else "Not Filled ❌") e)).
Proof.
  intros w candles pip st' He Hp Hgap Ht Hage Hlen Hn Hopen Hclose Habove.
  pose proof (λ idx st0, update_outcomes_body_run py w e gap_pips occured_at n open_price
                curr_price idx st0 Hp Hgap Ht Hage Hlen Hn Hopen Hclose) as Hbody.
  cbv zeta in Hbody.
  assert (update_outcomes_pip_value (Pair e) = pip) as Hpip
    by (unfold update_outcomes_pip_value, pip; destruct (str_in "JPY" (Pair e)); reflexivity).
  rewrite Hpip in Hbody.
  assert (∀ v, (∀ st0, update_outcomes_body py w (j + 2) e st0 = update_cell (j + 2) 8 v st0) →
               sheet st' !! j = Some (set_cell 8 v e)) as Hwrite.
  { intros v Hv. unfold st'. rewrite update_outcomes_loop.
    apply (sweep_reaches py later (sheet st) 2 st j j e e v He); try assumption; [lia|].
    intros k' y st0 Hk' Hy. replace (2 + k') with (k' + 2) by lia. by apply Habove. }
  split; intros Hdir; cbv zeta; apply Hwrite; intros st0;
    rewrite Hbody, Hdir; simpl String.eqb; cbv iota;
    match goal with |- context [if ?c then update_cell _ _ _ _ else _] => destruct c end;
    reflexivity.
Qed.

Lemma update_outcomes_fill_witness :
  sheet (update_outcomes Sample.textlib (Scenario.revisit "1.2970" Scenario.seven_o_clock)
           {| sheet := [Scenario.logged "GAP UP" "Filled ✅";
                        Scenario.logged "GAP UP" "Pending";
                        Edge.unreadable];
              posted := [] |}).2 !! 1 =
    Some (Scenario.logged "GAP UP" "Filled ✅").
Proof.
  refine (eq_trans (proj1 (update_outcomes_fill Sample.textlib
            (Scenario.revisit "1.2970" Scenario.seven_o_clock)
            {| sheet := [Scenario.logged "GAP UP" "Filled ✅";
                         Scenario.logged "GAP UP" "Pending";
                         Edge.unreadable];
               posted := [] |}
            1 (Scenario.logged "GAP UP" "Pending") 25 1714521600000000 1 1.3 1.297
            _ _ _ _ _ _ _ _ _ _) _) _).
  10: { intros i x st0 Hi Hx. destruct i as [|i]; [|lia].
        injection Hx as <-. reflexivity. }
  all: try (vm_compute; reflexivity); try (vm_compute; lia);
    try (vm_compute; discriminate).
Defined.

(** C3 as stated fails on a close equal to the expected fill, and on a row
    the sweep does not reach. A GAP UP of 35 pips with the candle opening at
    1.2001 and closing at 1.1966 closes on the expected fill in decimals; in
    binary64 the expected fill comes to 1.1965999999999999, and the row is
    written as not filled. And a row due to be filled stays pending below a
    pending row whose gap cell is no number: the sweep raises there. *)
Lemma update_outcomes_fill_rounded :
  Decimal.filled GAP_UP "1.2001" "1.1966" "35.0" "GBP/USD" = Some true ∧
  (1.1966 <=? 1.2001 - 35 * 0.0001)%float = false ∧
  Outcome <$>
    sheet (update_outcomes Sample.textlib Boundary.at_the_fill
             {| sheet := [Boundary.logged_35]; posted := [] |}).2 =
    ["Not Filled ❌"] ∧
  Decimal.filled GAP_UP "1.3000" "1.2970" "25.0" "GBP/USD" = Some true ∧
  Outcome <$>
    sheet (update_outcomes Sample.textlib (Scenario.revisit "1.2970" Scenario.seven_o_clock)
             {| sheet := [Edge.unreadable; Scenario.logged "GAP UP" "Pending"];
                posted := [] |}).2 =
    ["Pending"; "Pending"].
Proof. repeat split; vm_compute; reflexivity. Qed.

(** C4. The sweep changes a row in one way only, from pending to filled or
    to not filled; a row whose outcome is not pending is never changed
    again, through any number of later runs of the bot. *)
Theorem outcome_settles (py : textlib) (later : nat → world)
    (cycles : list ((string → string → world) * (nat → world)))
    (st : store) (j : nat) (e : row) :
  sheet st !! j = Some e →
  (let st' := (update_outcomes py later st).2 in
   sheet st' !! j = Some e ∨
   (Outcome e = "Pending" ∧
    (sheet st' !! j = Some (set_cell 8 "Filled ✅" e) ∨
     sheet st' !! j = Some (set_cell 8 "Not Filled ❌" e)))) ∧
  (Outcome e ≠ "Pending" →
   sheet (update_outcomes py later st).2 !! j = Some e ∧
   sheet (run_cycles py cycles st) !! j = Some e).
Proof.
  intros He. split.
  - cbv zeta. rewrite update_outcomes_loop.
    apply (sweep_row py later (sheet st) 2 st j e He).
    intros k x Hk Hidx. replace k with j in Hk by lia. congruence.
  - intros Hp. split.
    + rewrite update_outcomes_loop, sweep_keeps; [exact He|].
      intros k x Hk Hidx st0. replace k with j in Hk by lia.
      assert (x = e) as -> by congruence.
      by rewrite update_outcomes_body_settled.
    + apply run_cycles_keeps; [|exact He].
      intros w idx st0. by rewrite update_outcomes_body_settled.
Qed.

Lemma outcome_settles_witness :
  sheet (run_cycles Sample.textlib
           [(Scenario.market Scenario.quiet, Scenario.revisit "1.2980" Scenario.seven_o_clock)]
           {| sheet := [Scenario.logged "GAP UP" "Filled ✅"]; posted := [] |}) !! 0 =
    Some (Scenario.logged "GAP UP" "Filled ✅").
Proof.
  refine (proj2 (proj2 (outcome_settles Sample.textlib (λ _, Scenario.quiet) _ _ 0 _ _) _));
    [reflexivity | discriminate].
Defined.

(** C5. A pending row younger than its wait (six hours on the timeframe 4h,
    twenty-four hours on any other) is left as it is by the sweep, whatever
    the price data. *)
Theorem update_outcomes_waits (py : textlib) (later : nat → world) (st : store)
    (j : nat) (e : row) (occured_at : Z) :
  let w := later (j + 2) in
  let age := (utcnow w - occured_at)%Z in
  sheet st !! j = Some e →
  Outcome e = "Pending" →
  strptime py (Timestamp e) = Some occured_at →
  (if decide (TF e = "4h") then age < 6 * 3600 * 1000000
   else age < 24 * 3600 * 1000000)%Z →
  sheet (update_outcomes py later st).2 !! j = Some e.
Proof.
  intros w age He Hp Ht Hage.
  rewrite update_outcomes_loop, sweep_keeps; [exact He|].
  intros k x Hk Hidx st0. replace k with j in Hk by lia.
  assert (x = e) as -> by congruence.
  apply (update_outcomes_body_young py w _ e st0 occured_at Ht).
  fold age. unfold wait_time_for.
  destruct (decide (TF e = "4h")) as [->|Hne]; simpl; [lia|].
  destruct (String.eqb_spec (TF e) "4h"); [contradiction | lia].
Qed.

Lemma update_outcomes_waits_witness :
  sheet (update_outcomes Sample.textlib (Scenario.revisit "1.2970" Scenario.three_o_clock)
           {| sheet := [Scenario.logged "GAP UP" "Pending"]; posted := [] |}).2 !! 0 =
    Some (Scenario.logged "GAP UP" "Pending").
Proof.
  refine (update_outcomes_waits Sample.textlib _ _ 0 _ 1714521600000000 _ _ _ _);
    reflexivity.
Defined.

(** C10. A pending row whose direction is neither GAP UP nor GAP DOWN gets
    no outcome: its iteration of the sweep, price data fetched or not,
    writes nothing, and the row stays as it is through every run. *)
Theorem update_outcomes_unknown_direction (py : textlib)
    (cycles : list ((string → string → world) * (nat → world)))
    (later : nat → world) (st : store) (j : nat) (e : row) :
  sheet st !! j = Some e →
  Outcome e = "Pending" →
  Direction e ≠ "GAP UP" → Direction e ≠ "GAP DOWN" →
  (∀ w idx st0, (update_outcomes_body py w idx e st0).2 = st0) ∧
  sheet (update_outcomes py later st).2 !! j = Some e ∧
  sheet (run_cycles py cycles st) !! j = Some e.
Proof.
  intros He _ Hup Hdown.
  assert (∀ w idx st0, (update_outcomes_body py w idx e st0).2 = st0) as Hkeep
    by (intros; by apply update_outcomes_body_no_direction).
  split; [exact Hkeep|]. split.
  - rewrite update_outcomes_loop, sweep_keeps; [exact He|].
    intros k x Hk Hidx st0. replace k with j in Hk by lia.
    assert (x = e) as -> by congruence. apply Hkeep.
  - by apply run_cycles_keeps.
Qed.

Lemma update_outcomes_unknown_direction_witness :
  sheet (update_outcomes Sample.textlib (Scenario.revisit "1.2970" Scenario.seven_o_clock)
           {| sheet := [Scenario.logged "GAP" "Pending"]; posted := [] |}).2 !! 0 =
    Some (Scenario.logged "GAP" "Pending").
Proof.
  refine (proj1 (proj2 (update_outcomes_unknown_direction Sample.textlib [] _ _ 0 _ _ _ _ _)));
    (reflexivity || discriminate).
Defined.

(** C6, as the code has it. The pip size is 0.01 for a symbol in which the
    text JPY occurs, on either side of the slash, and 0.0001 for every other
    symbol; [check_gap] and [update_outcomes] derive the same size from the
    same symbol; on the five configured pairs it is the size of the
    specification, 0.01 for the pairs quoting Yen and 0.0001 for the rest. *)
Theorem pip_value_by_symbol (pair : string) :
  check_gap_pip_value pair = update_outcomes_pip_value pair ∧
  check_gap_pip_value pair = (if str_in "JPY" pair then 0.01 else 0.0001)%float ∧
  Forall (λ p, check_gap_pip_value p = spec_pip_size p) PAIR_LIST.
Proof.
  split; [reflexivity|]. split.
  - unfold check_gap_pip_value. destruct (str_in "JPY" pair); reflexivity.
  - repeat constructor.
Qed.

(** C6 as stated fails on a symbol with the Yen as base currency: JPY/USD
    quotes the dollar, and both paths take the pip size 0.01 for it. *)
Lemma pip_value_yen_base :
  quote_currency "JPY/USD" = "USD" ∧
  spec_pip_size "JPY/USD" = 0.0001%float ∧
  check_gap_pip_value "JPY/USD" = 0.01%float ∧
  update_outcomes_pip_value "JPY/USD" = 0.01%float ∧
  (check_gap_pip_value "JPY/USD" =? spec_pip_size "JPY/USD")%float = false.
Proof. repeat split. Qed.

(** C7, on a malformed answer. Two candles without their fields for the
    first unit of work, GBP/USD on 4h: [check_gap] raises [KeyError], the
    run ends there with nothing logged, and the gap of EUR/USD, which the
    same run logs when the first answer is empty, is never looked at. *)
Theorem malformed_candles_end_the_run :
  check_gap Sample.textlib Scenario.malformed "GBP/USD" "4h" Scenario.no_store =
    (inl KeyError, Scenario.no_store) ∧
  run_bot Sample.textlib (Scenario.market Scenario.malformed)
    (Scenario.revisit "1.2970" Scenario.seven_o_clock) Scenario.no_store =
    (inl KeyError, Scenario.no_store) ∧
  Pair <$> sheet (run_bot Sample.textlib (Scenario.market Scenario.quiet)
                    (Scenario.revisit "1.2970" Scenario.seven_o_clock) Scenario.no_store).2 =
    ["EUR/USD"].
Proof. repeat split; vm_compute; reflexivity. Qed.

(** C2, at an RSI of zero. The specification's table answers a GAP DOWN
    with an RSI of 0 by the oversold suggestion; the suggestion logic takes
    the zero for no reading, answers with the wait, and [check_gap] logs the
    RSI as N/A. *)
Theorem suggestion_rsi_zero :
  spec_suggestion GAP_DOWN (Some 0%float) = "Oversold GAP DOWN. Consider LONG." ∧
  suggestion_for (direction_text GAP_DOWN) (Some 0%float) =
    "GAP DOWN. Wait for confirmation." ∧
  get_rsi Sample.textlib Scenario.gap_down_rsi_zero "GBP/USD" "4h" = Some 0%float ∧
  (λ ev, (Direction ev, RSI ev, Suggestion ev)) <$>
    sheet (check_gap Sample.textlib Scenario.gap_down_rsi_zero "GBP/USD" "4h"
             Scenario.no_store).2 =
    [("GAP DOWN", "N/A", "GAP DOWN. Wait for confirmation.")].
Proof. repeat split; vm_compute; reflexivity. Qed.

(** ** Further properties of the code *)

(** *** Floats: the NaN *)

Section Float_nan.
Local Open Scope float_scope.

Lemma is_nan_true (x : float) : is_nan x = true ↔ Prim2SF x = S754_nan.
Proof.
  pose proof (is_nan_false x) as H.
  destruct (is_nan x); split; try reflexivity; try discriminate.
  - intros _. destruct (Prim2SF x) eqn:E; try reflexivity;
      exfalso; assert (true = false) by (apply H; discriminate); discriminate.
  - intros E. exfalso. by apply (proj1 H).
Qed.

(** No comparison holds of a NaN. *)
Lemma leb_nan (x y : float) :
  is_nan x = true → (x <=? y) = false ∧ (y <=? x) = false.
Proof.
  rewrite is_nan_true, !FloatAxioms.leb_spec. unfold SFleb. intros ->.
  split; [reflexivity | destruct (Prim2SF y); reflexivity].
Qed.

(** A float above 70 is no zero. *)
Lemma above_70_nonzero (r : float) : (70 <? r) = true → (r =? 0) = false.
Proof.
  rewrite FloatAxioms.ltb_spec, FloatAxioms.eqb_spec. unfold SFltb, SFeqb.
  change (Prim2SF 0) with (S754_zero false).
  destruct (Prim2SF r) as [s|s| |s m e]; simpl; try reflexivity;
    try discriminate; destruct s; reflexivity.
Qed.

(** The difference of two ordered floats is a number or an infinity. *)
Lemma SFsub_ordered (x y : spec_float) : SFltb y x = true → SF64sub x y ≠ S754_nan.
Proof.
  unfold SFltb, SF64sub, SFsub.
  destruct x as [sx|sx| |sx mx ex], y as [sy|sy| |sy my ey]; simpl;
    try discriminate; try (destruct sx, sy; discriminate).
  intros _. apply binary_normalize_not_nan.
Qed.

(** A gap that is a NaN comes of prices that are not in order. *)
Lemma nan_gap_unordered (a b pip : float) s m e :
  Prim2SF pip = S754_finite s m e →
  is_nan (abs (a - b) / pip) = true → (b <? a) = false.
Proof.
  intros Hpip. rewrite is_nan_true, div_spec, abs_spec, sub_spec, FloatAxioms.ltb_spec.
  intros Hnan. destruct (SFltb (Prim2SF b) (Prim2SF a)) eqn:Hlt; [exfalso|reflexivity].
  apply (SFdiv_number (SFabs (SF64sub (Prim2SF a) (Prim2SF b))) (Prim2SF pip) s m e);
    [|exact Hpip|exact Hnan].
  by apply SFabs_not_nan, SFsub_ordered.
Qed.

End Float_nan.

(** *** The utilities *)

Lemma str_remove_gone (c : ascii) (s : string) :
  str_in (String c EmptyString) (str_remove c s) = false.
Proof.
  induction s as [|a s IH]; [reflexivity|]. simpl.
  destruct (Ascii.eqb_spec a c) as [->|Hne]; [exact IH|].
  simpl. destruct (ascii_dec c a) as [->|_]; [contradiction | exact IH].
Qed.

Lemma str_remove_absent (c : ascii) (s : string) :
  str_in (String c EmptyString) s = false → str_remove c s = s.
Proof.
  induction s as [|a s IH]; [reflexivity|]. simpl.
  destruct (ascii_dec c a) as [->|Hne].
  - destruct s; discriminate.
  - intros Hin. destruct (Ascii.eqb_spec a c) as [->|_]; [contradiction|].
    by rewrite IH.
Qed.

(** X1. The chart link names the pair with every slash taken out (and is the
    pair itself when it has none), and the interval [D] for the timeframe
    [1day], [240] for [4h] and for every timeframe [TF_MAP] does not know. *)
Theorem build_chart_url_shape (pair tf : string) :
  let symbol := str_remove "/" pair in
  build_chart_url pair tf =
    "https://www.tradingview.com/chart/?symbol=FX:" ++ symbol ++ "&interval=" ++
    (if String.eqb tf "1day" then "D" else "240") ∧
  str_in "/" symbol = false ∧
  (str_in "/" pair = false → symbol = pair).
Proof.
  split; [|split; [apply str_remove_gone | apply str_remove_absent]].
  unfold build_chart_url.
  change (dict_get TF_MAP tf "240") with
    (if String.eqb "4h" tf then "240" else if String.eqb "1day" tf then "D" else "240").
  rewrite (String.eqb_sym "1day" tf).
  destruct (String.eqb_spec "4h" tf) as [<-|_]; [reflexivity|].
  destruct (String.eqb tf "1day"); reflexivity.
Qed.

(** X2. [get_rsi] answers with a reading exactly when the body is an object
    whose [values] is a list that starts with an object whose [rsi]
    [float()] accepts; on every other answer, and when the request fails, it
    answers [None] and raises nothing. *)
Theorem get_rsi_reading (py : textlib) (w : world) (pair tf : string) (f : float) :
  get_rsi py w pair tf = Some f ↔
  ∃ d fields rest v,
    rsi_series w pair tf = Some (PDict d) ∧
    d !! "values" = Some (PList (PDict fields :: rest)) ∧
    fields !! "rsi" = Some v ∧
    py_float py v = inr f.
Proof.
  unfold get_rsi. split.
  - destruct (rsi_series w pair tf) as [[|b|z|f0|s|l|d]|]; simpl; try discriminate.
    + destruct (str_in "values" s); discriminate.
    + destruct (existsb _ l); discriminate.
    + destruct (d !! "values") as [values|] eqn:Hvalues; simpl; [|discriminate].
      destruct values as [|b|z|f0|s|[|first rest]|d']; simpl; try discriminate.
      * destruct (str_chars s); discriminate.
      * destruct first as [|b|z|f0|s|l|fields]; simpl; try discriminate.
        destruct (fields !! "rsi") as [v|] eqn:Hrsi; simpl; [|discriminate].
        destruct (py_float py v) as [ex|f'] eqn:Hf; simpl; [discriminate|].
        intros [= <-]. by exists d, fields, rest, v.
  - intros (d & fields & rest & v & -> & Hvalues & Hrsi & Hf). simpl.
    rewrite Hvalues. simpl. rewrite Hrsi. simpl. rewrite Hf. reflexivity.
Qed.

(** X3. Without two candles [check_gap] returns at once, with nothing
    posted and nothing logged: when the request fails, when the body is no
    object or an object without [values], and when [values] lists fewer than
    two candles. *)
Theorem check_gap_too_few_candles (py : textlib) (w : world) (pair tf : string)
    (st : store) :
  (time_series w pair tf 2 = None ∨
   (∃ v, time_series w pair tf 2 = Some v ∧ ∀ d, v ≠ PDict d) ∨
   (∃ d, time_series w pair tf 2 = Some (PDict d) ∧ d !! "values" = None) ∨
   (∃ d l, time_series w pair tf 2 = Some (PDict d) ∧
           d !! "values" = Some (PList l) ∧ length l < 2)) →
  check_gap py w pair tf st = (inr tt, st).
Proof.
  unfold check_gap, get_candles.
  intros [->|[(v & -> & Hv)|[(d & -> & Hd)|(d & l & -> & Hd & Hl)]]]; simpl.
  - reflexivity.
  - destruct v; try reflexivity. by destruct (Hv d).
  - rewrite Hd. reflexivity.
  - rewrite Hd. simpl. unfold mbind, M_bind, lift. simpl.
    destruct (Z.ltb_spec (Z.of_nat (length l)) 2); [reflexivity | lia].
Qed.

Lemma check_gap_too_few_candles_witness :
  check_gap Sample.textlib Edge.refused "GBP/USD" "4h" Scenario.no_store =
    (inr tt, Scenario.no_store).
Proof.
  apply check_gap_too_few_candles. right. right. left.
  eexists. split; reflexivity.
Defined.

(** X4. An answer whose [values] is [null], a number or a boolean makes
    [check_gap] raise [TypeError] at [len(candles)], with nothing posted and
    nothing logged. *)
Theorem check_gap_values_without_length (py : textlib) (w : world) (pair tf : string)
    (st : store) (d : gmap string pyval) (v : pyval) :
  time_series w pair tf 2 = Some (PDict d) →
  d !! "values" = Some v →
  (v = PNone ∨ (∃ b, v = PBool b) ∨ (∃ n, v = PInt n) ∨ (∃ f, v = PFloat f)) →
  check_gap py w pair tf st = (inl TypeError, st).
Proof.
  intros Hd Hv Hkind. unfold check_gap, get_candles. rewrite Hd. simpl. rewrite Hv.
  destruct Hkind as [->|[[b ->]|[[n ->]|[f ->]]]]; reflexivity.
Qed.

Lemma check_gap_values_without_length_witness :
  check_gap Sample.textlib Edge.values_null "GBP/USD" "4h" Scenario.no_store =
    (inl TypeError, Scenario.no_store).
Proof.
  refine (check_gap_values_without_length Sample.textlib Edge.values_null "GBP/USD" "4h"
            Scenario.no_store {[ "values" := PNone ]} PNone _ _ _);
    [reflexivity | reflexivity | by left].
Defined.

(** *** The gap check *)

Lemma ltb_nan (x y : float) : is_nan x = true → (x <? y)%float = false.
Proof.
  rewrite is_nan_true, FloatAxioms.ltb_spec. unfold SFltb. by intros ->.
Qed.

(** X5. When [check_gap] returns, it has left the store as it found it, or
    it has posted exactly one message and appended exactly one row below the
    rows there were; that row is pending, names the pair, the timeframe, the
    time of the clock and the chart link, and its direction is GAP UP or
    GAP DOWN. *)
Theorem check_gap_returns (py : textlib) (w : world) (pair tf : string)
    (st st' : store) :
  check_gap py w pair tf st = (inr tt, st') →
  st' = st ∨
  ∃ ev msg,
    st' = {| sheet := sheet st ++ [ev]; posted := posted st ++ [msg] |} ∧
    Outcome ev = "Pending" ∧ Pair ev = pair ∧ TF ev = tf ∧
    Timestamp ev = strftime py (utcnow w) ∧
    ChartURL ev = build_chart_url pair tf ∧
    (Direction ev = "GAP UP" ∨ Direction ev = "GAP DOWN").
Proof.
  unfold check_gap, mbind, M_bind, lift, send_to_telegram, append_row.
  repeat (case_match; simplify_eq); intros [= <-];
    try (left; reflexivity);
    right; do 2 eexists; (split; [reflexivity|]); simpl; auto 10.
Qed.

Lemma check_gap_returns_witness :
  ∃ ev msg,
    (check_gap Sample.textlib Scenario.gap_up "GBP/USD" "4h" Scenario.no_store).2 =
      {| sheet := [ev]; posted := [msg] |} ∧
    Outcome ev = "Pending" ∧ Pair ev = "GBP/USD" ∧ TF ev = "4h" ∧
    Timestamp ev = "2024-05-01 07:00:00" ∧
    ChartURL ev = "https://www.tradingview.com/chart/?symbol=FX:GBPUSD&interval=240" ∧
    (Direction ev = "GAP UP" ∨ Direction ev = "GAP DOWN").
Proof.
  destruct (check_gap_returns Sample.textlib Scenario.gap_up "GBP/USD" "4h"
              Scenario.no_store
              (check_gap Sample.textlib Scenario.gap_up "GBP/USD" "4h"
                 Scenario.no_store).2)
    as [H|(ev & msg & H & Hrest)].
  - vm_compute. reflexivity.
  - vm_compute in H. discriminate H.
  - exists ev, msg. split; [exact H | exact Hrest].
Defined.

(** X6. The suggestion to go short is given exactly on a GAP UP with an RSI
    reading above 70, and the suggestion to go long exactly on another
    direction with a reading below 30 that is not zero: never without a
    reading. *)
Theorem suggestion_needs_reading (direction : string) (rsi : option float) :
  (suggestion_for direction rsi = "Overbought GAP UP. Consider SHORT." ↔
   direction = "GAP UP" ∧ ∃ r, rsi = Some r ∧ (70 <? r)%float = true) ∧
  (suggestion_for direction rsi = "Oversold GAP DOWN. Consider LONG." ↔
   direction ≠ "GAP UP" ∧
   ∃ r, rsi = Some r ∧ (r <? 30)%float = true ∧ (r =? 0)%float = false).
Proof.
  unfold suggestion_for, rsi_and, float_truth.
  destruct (String.eqb_spec direction "GAP UP") as [Hd|Hd]; split; split.
  - destruct rsi as [r|]; [|discriminate].
    destruct (r =? 0)%float; simpl; [discriminate|].
    destruct (70 <? r)%float eqn:Hr; [|discriminate]. intros _. split; [exact Hd|]. eauto.
  - intros (_ & r & -> & Hr). rewrite (above_70_nonzero r Hr), Hr. reflexivity.
  - destruct rsi as [r|]; [|discriminate].
    destruct (r =? 0)%float; simpl; [discriminate|]. destruct (70 <? r)%float; discriminate.
  - intros [Hne _]. contradiction.
  - destruct rsi as [r|]; [|discriminate].
    destruct (r =? 0)%float; simpl; [discriminate|]. destruct (r <? 30)%float; discriminate.
  - intros [Heq _]. contradiction.
  - destruct rsi as [r|]; [|discriminate].
    destruct (r =? 0)%float eqn:Hz; simpl; [discriminate|].
    destruct (r <? 30)%float eqn:Hr; [|discriminate]. intros _. split; [exact Hd|]. eauto.
  - intros (_ & r & -> & Hr & Hz). rewrite Hz, Hr. reflexivity.
Qed.

(** X7. A gap that is a NaN (an open or a close that is one, or two
    infinite prices of one sign) is not below the threshold for the test of
    [check_gap]: the event is logged and posted, pending, with the direction
    GAP DOWN. *)
Theorem check_gap_nan_gap (py : textlib) (w : world) (pair tf : string) (st : store)
    (n : Z) (curr_open prev_close : float) :
  let candles := get_candles w pair tf 2 in
  let gap_pips := (abs (curr_open - prev_close) / check_gap_pip_value pair)%float in
  py_len candles = inr n → (2 ≤ n)%Z →
  price py candles 0 "open" = inr curr_open →
  price py candles 1 "close" = inr prev_close →
  is_nan gap_pips = true →
  ∃ ev msg,
    check_gap py w pair tf st =
      (inr tt, {| sheet := sheet st ++ [ev]; posted := posted st ++ [msg] |}) ∧
    Direction ev = "GAP DOWN" ∧ Gap_pips ev = format_1f py gap_pips ∧
    Outcome ev = "Pending".
Proof.
  intros candles gap_pips Hlen Hn Hopen Hclose Hnan.
  pose proof (check_gap_run py w pair tf st n curr_open prev_close Hlen Hn Hopen Hclose)
    as Hrun. cbv zeta in Hrun. fold gap_pips in Hrun.
  rewrite (ltb_nan gap_pips 20 Hnan) in Hrun.
  assert ((prev_close <? curr_open)%float = false) as Hdown.
  { unfold gap_pips, check_gap_pip_value in Hnan.
    destruct (str_in "JPY" pair); simpl in Hnan;
      eapply nan_gap_unordered; try exact Hnan; reflexivity. }
  rewrite Hdown in Hrun. rewrite Hrun. do 2 eexists. repeat split.
Qed.

Lemma check_gap_nan_gap_witness :
  (λ ev, (Direction ev, Gap_pips ev, Outcome ev)) <$>
    sheet (check_gap Sample.textlib Edge.nan_open "GBP/USD" "4h" Scenario.no_store).2 =
    [("GAP DOWN", "nan", "Pending")].
Proof.
  destruct (check_gap_nan_gap Sample.textlib Edge.nan_open "GBP/USD" "4h" Scenario.no_store
              2 nan 1.247 eq_refl ltac:(lia) eq_refl eq_refl eq_refl)
    as (ev & msg & Hrun & Hdir & Hgap & Hout).
  rewrite Hrun. simpl. rewrite Hdir, Hgap, Hout. reflexivity.
Defined.

(** *** The sweep *)

Section Float_nan_arith.
Local Open Scope float_scope.

(** A NaN among the operands makes the expected fill a NaN. *)
Lemma expected_fill_nan (o g p : float) :
  is_nan o = true ∨ is_nan g = true →
  is_nan (o - g * p) = true ∧ is_nan (o + g * p) = true.
Proof.
  rewrite !is_nan_true, sub_spec, add_spec, mul_spec.
  intros [->| ->]; split; try reflexivity; simpl;
    destruct (Prim2SF o); reflexivity.
Qed.

End Float_nan_arith.

Section Sweep_more.
Context (py : textlib) (later : nat → world).
Implicit Types (st : store) (e : row).

Local Abbreviation sweep start rows :=
  (for_in (enumerate start rows)
     (λ '(idx, entry), update_outcomes_body py (later idx) idx entry)).

Lemma update_cell_length r c v st :
  length (sheet (update_cell r c v st).2) = length (sheet st).
Proof.
  unfold update_cell; simpl. destruct r as [|[|i]]; try reflexivity.
  apply length_alter.
Qed.

Lemma sweep_length rows start st :
  length (sheet (sweep start rows st).2) = length (sheet st).
Proof.
  revert start st. induction rows as [|x rest IH]; intros start st; [reflexivity|].
  rewrite sweep_step.
  assert (length (sheet (update_outcomes_body py (later start) start x st).2) =
          length (sheet st)) as Hx.
  { destruct (update_outcomes_body_cases py (later start) start x st)
      as [->|(_ & v & _ & ->)]; [reflexivity | apply update_cell_length]. }
  destruct (update_outcomes_body py (later start) start x st) as [[ex|u] st1];
    simpl in Hx |- *; [exact Hx|]. by rewrite IH.
Qed.

(** Rows that are not pending are run over without a stop. *)
Lemma sweep_settled rows start st :
  Forall (λ e, Outcome e ≠ "Pending") rows → sweep start rows st = (inr tt, st).
Proof.
  intros Hrows. revert start. induction Hrows as [|x rest Hx _ IH]; intros start;
    [reflexivity|].
  rewrite sweep_step, update_outcomes_body_settled by exact Hx. apply IH.
Qed.

(** The sweep ends at the latest on a row whose iteration raises, and
    leaves that row and the rows below it as they are. *)
Lemma sweep_stops rows start st j k x :
  rows !! k = Some x → start + k = j + 2 →
  (∀ st0, ∃ ex, update_outcomes_body py (later (j + 2)) (j + 2) x st0 = (inl ex, st0)) →
  (∃ ex, (sweep start rows st).1 = inl ex) ∧
  ∀ i, (j ≤ i)%nat → sheet (sweep start rows st).2 !! i = sheet st !! i.
Proof.
  revert start st k. induction rows as [|y rest IH]; intros start st k Hk Hidx Hraise;
    [discriminate|].
  rewrite sweep_step. destruct k as [|k]; simpl in Hk.
  - simplify_eq. replace start with (j + 2) by lia.
    destruct (Hraise st) as [ex ->]. simpl. split; [by exists ex | reflexivity].
  - pose proof (λ i, update_outcomes_body_other_rows py (later start) start y st i) as Hy.
    destruct (update_outcomes_body py (later start) start y st) as [[ex|u] st1];
      simpl in Hy |- *.
    + split; [by exists ex|]. intros i Hi. apply Hy. lia.
    + destruct (IH (S start) st1 k Hk ltac:(lia) Hraise) as [Hex Hrows].
      split; [exact Hex|]. intros i Hi. rewrite Hrows by exact Hi. apply Hy. lia.
Qed.

End Sweep_more.

(** X8. The sweep posts nothing, keeps the number of rows, and changes no
    cell but the outcome of a row that was pending: the other eight columns
    of every row are as they were. *)
Theorem update_outcomes_frame (py : textlib) (later : nat → world) (st : store) :
  let st' := (update_outcomes py later st).2 in
  posted st' = posted st ∧
  Forall2 (λ e e',
             Timestamp e' = Timestamp e ∧ Pair e' = Pair e ∧ TF e' = TF e ∧
             Gap_pips e' = Gap_pips e ∧ RSI e' = RSI e ∧ Direction e' = Direction e ∧
             Suggestion e' = Suggestion e ∧ ChartURL e' = ChartURL e ∧
             (Outcome e' = Outcome e ∨ Outcome e = "Pending"))
          (sheet st) (sheet st').
Proof.
  cbv zeta. rewrite update_outcomes_loop. split; [apply sweep_posted|].
  apply Forall2_same_length_lookup_2; [symmetry; apply sweep_length|].
  intros i e e' He He'.
  destruct (sweep_row py later (sheet st) 2 st i e He) as [H|(Hp & [H|H])].
  - intros k x Hk Hidx. replace k with i in Hk by lia. congruence.
  - rewrite H in He'. injection He' as <-. repeat split; auto.
  - rewrite H in He'. injection He' as <-. simpl. repeat split; auto.
  - rewrite H in He'. injection He' as <-. simpl. repeat split; auto.
Qed.

(** X9. On a sheet without a pending row (an empty sheet too) the sweep
    returns with the store as it found it, whatever the endpoints and the
    clock would answer, and whatever else the rows hold. *)
Theorem update_outcomes_nothing_pending (py : textlib) (later : nat → world)
    (st : store) :
  Forall (λ e, Outcome e ≠ "Pending") (sheet st) →
  update_outcomes py later st = (inr tt, st).
Proof.
  intros Hrows. rewrite update_outcomes_loop. by apply sweep_settled.
Qed.

Lemma update_outcomes_nothing_pending_witness :
  update_outcomes Sample.textlib Edge.no_answer
    {| sheet := [set_cell 4 "n/a" (Scenario.logged "GAP" "Filled ✅");
                 Scenario.logged "GAP UP" "Not Filled ❌"];
       posted := [] |} =
    (inr tt,
     {| sheet := [set_cell 4 "n/a" (Scenario.logged "GAP" "Filled ✅");
                  Scenario.logged "GAP UP" "Not Filled ❌"];
        posted := [] |}).
Proof.
  apply update_outcomes_nothing_pending. repeat constructor; discriminate.
Defined.

(** X10. A pending row whose gap cell [float()] refuses, or whose timestamp
    [strptime] refuses, stops the sweep: [update_outcomes] raises, and that
    row and every row below it stay as they are, the ones due for an outcome
    too. *)
Theorem update_outcomes_stops_at_unreadable_row (py : textlib) (later : nat → world)
    (st : store) (j : nat) (e : row) :
  sheet st !! j = Some e →
  Outcome e = "Pending" →
  (float_of_str py (Gap_pips e) = None ∨ strptime py (Timestamp e) = None) →
  (∃ ex, (update_outcomes py later st).1 = inl ex) ∧
  ∀ i, (j ≤ i)%nat → sheet (update_outcomes py later st).2 !! i = sheet st !! i.
Proof.
  intros He Hp Hbad. rewrite update_outcomes_loop.
  apply (sweep_stops py later (sheet st) 2 st j j e He); [lia|].
  intros st0. exists ValueError. unfold update_outcomes_body. rewrite Hp.
  change (negb (String.eqb "Pending" "Pending")) with false. cbv iota.
  unfold mbind, M_bind, lift, py_float.
  destruct Hbad as [-> | Ht]; [reflexivity|].
  rewrite Ht. destruct (float_of_str py (Gap_pips e)); reflexivity.
Qed.

Lemma update_outcomes_stops_at_unreadable_row_witness :
  (∃ ex, (update_outcomes Sample.textlib (Scenario.revisit "1.2970" Scenario.seven_o_clock)
            {| sheet := [Edge.unreadable; Scenario.logged "GAP UP" "Pending"];
               posted := [] |}).1 = inl ex) ∧
  sheet (update_outcomes Sample.textlib (Scenario.revisit "1.2970" Scenario.seven_o_clock)
           {| sheet := [Edge.unreadable; Scenario.logged "GAP UP" "Pending"];
              posted := [] |}).2 !! 1 =
    Some (Scenario.logged "GAP UP" "Pending").
Proof.
  destruct (update_outcomes_stops_at_unreadable_row Sample.textlib
              (Scenario.revisit "1.2970" Scenario.seven_o_clock)
              {| sheet := [Edge.unreadable; Scenario.logged "GAP UP" "Pending"];
                 posted := [] |}
              0 Edge.unreadable eq_refl eq_refl (or_introl eq_refl)) as [Hex Hrows].
  split; [exact Hex|]. rewrite (Hrows 1) by lia. reflexivity.
Defined.

(** X11. A pending row for which no candle is to be had (the request fails,
    the answer has no [values], or lists none) gets no outcome and raises
    nothing: its iteration returns with the store as it found it, and the
    row is the same after the sweep. *)
Theorem update_outcomes_without_candle (py : textlib) (later : nat → world) (st : store)
    (j : nat) (e : row) (gap_pips : float) (occured_at : Z) :
  let w := later (j + 2) in
  sheet st !! j = Some e →
  Outcome e = "Pending" →
  float_of_str py (Gap_pips e) = Some gap_pips →
  strptime py (Timestamp e) = Some occured_at →
  (time_series w (Pair e) (TF e) 1 = None ∨
   ∃ d, time_series w (Pair e) (TF e) 1 = Some (PDict d) ∧
        (d !! "values" = None ∨ d !! "values" = Some (PList []))) →
  (∀ idx st0, update_outcomes_body py w idx e st0 = (inr tt, st0)) ∧
  sheet (update_outcomes py later st).2 !! j = Some e.
Proof.
  intros w He Hp Hgap Ht Hnone.
  assert (∀ idx st0, update_outcomes_body py w idx e st0 = (inr tt, st0)) as Hbody.
  { intros idx st0. unfold update_outcomes_body. rewrite Hp.
    change (negb (String.eqb "Pending" "Pending")) with false. cbv iota.
    unfold py_float. rewrite Hgap, Ht.
    rewrite (bind_lift_inr _ gap_pips) by reflexivity.
    rewrite (bind_lift_inr _ occured_at) by reflexivity.
    destruct (age_lt _ _); [reflexivity|].
    assert (get_candles w (Pair e) (TF e) 1 = PList []) as ->; [|reflexivity].
    unfold get_candles.
    destruct Hnone as [->|(d & -> & [Hd|Hd])]; simpl; rewrite ?Hd; reflexivity. }
  split; [exact Hbody|].
  rewrite update_outcomes_loop, sweep_keeps; [exact He|].
  intros k x Hk Hidx st0. replace k with j in Hk by lia.
  assert (x = e) as -> by congruence. fold w. by rewrite Hbody.
Qed.

Lemma update_outcomes_without_candle_witness :
  sheet (update_outcomes Sample.textlib Edge.no_answer
           {| sheet := [Scenario.logged "GAP UP" "Pending"]; posted := [] |}).2 !! 0 =
    Some (Scenario.logged "GAP UP" "Pending").
Proof.
  refine (proj2 (update_outcomes_without_candle Sample.textlib Edge.no_answer
            {| sheet := [Scenario.logged "GAP UP" "Pending"]; posted := [] |}
            0 (Scenario.logged "GAP UP" "Pending") 25 1714521600000000 _ _ _ _ _));
    try reflexivity. by left.
Defined.

(** X12. In a sweep that completes, a pending row of either direction that
    is old enough is written as not filled when the candle read for it has a
    NaN as its close or its open, or when the gap read from the row is a
    NaN: no comparison with a NaN holds. *)
Theorem update_outcomes_nan_not_filled (py : textlib) (later : nat → world)
    (st st' : store) (j : nat) (e : row) (gap_pips : float) (occured_at n : Z)
    (open_price curr_price : float) :
  let w := later (j + 2) in
  let candles := get_candles w (Pair e) (TF e) 1 in
  update_outcomes py later st = (inr tt, st') →
  sheet st !! j = Some e →
  Outcome e = "Pending" →
  float_of_str py (Gap_pips e) = Some gap_pips →
  strptime py (Timestamp e) = Some occured_at →
  (wait_time_for (TF e) * 1000000 ≤ utcnow w - occured_at)%Z →
  py_len candles = inr n → (1 ≤ n)%Z →
  price py candles 0 "open" = inr open_price →
  price py candles 0 "close" = inr curr_price →
  Direction e = "GAP UP" ∨ Direction e = "GAP DOWN" →
  is_nan curr_price = true ∨ is_nan open_price = true ∨ is_nan gap_pips = true →
  sheet st' !! j = Some (set_cell 8 "Not Filled ❌" e).
Proof.
  intros w candles Hrun He Hp Hgap Ht Hage Hlen Hn Hopen Hclose Hdir Hnan.
  rewrite update_outcomes_loop in Hrun.
  apply (sweep_writes py later (sheet st) 2 st st' j j e e "Not Filled ❌" Hrun He
           ltac:(lia) He).
  intros st0. fold w.
  rewrite (update_outcomes_body_run py w e gap_pips occured_at n open_price curr_price
             (j + 2) st0 Hp Hgap Ht Hage Hlen Hn Hopen Hclose).
  set (pip := update_outcomes_pip_value (Pair e)).
  assert ((curr_price <=? open_price - gap_pips * pip)%float = false ∧
          (open_price + gap_pips * pip <=? curr_price)%float = false) as [Hup Hdown].
  { destruct Hnan as [Hc|Hog].
    - split; [exact (proj1 (leb_nan curr_price _ Hc)) | exact (proj2 (leb_nan curr_price _ Hc))].
    - destruct (expected_fill_nan open_price gap_pips pip) as [Hsub Hadd];
        [tauto|].
      split; [exact (proj2 (leb_nan _ curr_price Hsub)) | exact (proj1 (leb_nan _ curr_price Hadd))]. }
  rewrite Hup, Hdown. destruct Hdir as [-> | ->]; reflexivity.
Qed.

Lemma update_outcomes_nan_not_filled_witness :
  sheet (update_outcomes Sample.textlib Edge.nan_close
           {| sheet := [Scenario.logged "GAP DOWN" "Pending"]; posted := [] |}).2 !! 0 =
    Some (Scenario.logged "GAP DOWN" "Not Filled ❌").
Proof.
  refine (update_outcomes_nan_not_filled Sample.textlib Edge.nan_close
            {| sheet := [Scenario.logged "GAP DOWN" "Pending"]; posted := [] |}
            _ 0 (Scenario.logged "GAP DOWN" "Pending") 25 1714521600000000 1 1.3 nan
            _ _ _ _ _ _ _ _ _ _ _ _);
    try (vm_compute; reflexivity); try reflexivity;
    try (by right); try (by left); vm_compute; try lia; discriminate.
Defined.

(** *** Whole runs *)

Section Runs_more.
Context (py : textlib).
Implicit Types (st : store) (e : row).

(** A loop whose iterations each append at most [b] rows, and as many
    messages, appends at most [b] times its length of them. *)
Lemma for_in_appends {A} (l : list A) (body : A → M unit) (b : nat) st :
  (∀ x st0, ∃ rows msgs,
     sheet (body x st0).2 = (sheet st0 ++ rows)%list ∧
     posted (body x st0).2 = (posted st0 ++ msgs)%list ∧
     length rows = length msgs ∧ (length msgs ≤ b)%nat) →
  ∃ rows msgs,
    sheet (for_in l body st).2 = (sheet st ++ rows)%list ∧
    posted (for_in l body st).2 = (posted st ++ msgs)%list ∧
    length rows = length msgs ∧ (length msgs ≤ b * length l)%nat.
Proof.
  intros Hbody. revert st. induction l as [|x rest IH]; intros st.
  - exists [], []. simpl. rewrite !app_nil_r. repeat split; lia.
  - simpl. unfold mbind, M_bind.
    destruct (Hbody x st) as (rows & msgs & Hs & Hp & Hlen & Hb).
    destruct (body x st) as [[ex|u] st1]; simpl in Hs, Hp |- *.
    + exists rows, msgs. repeat split; try assumption. lia.
    + destruct (IH st1) as (rows' & msgs' & Hs' & Hp' & Hlen' & Hb').
      exists (rows ++ rows')%list, (msgs ++ msgs')%list.
      rewrite Hs', Hp', Hs, Hp, !length_app, <- !app_assoc. repeat split; lia.
Qed.

(** A loop raises when one of its iterations raises from every store. *)
Lemma for_in_raises {A} (l : list A) (body : A → M unit) (x : A) st :
  x ∈ l → (∀ st0, ∃ ex, (body x st0).1 = inl ex) →
  ∃ ex, (for_in l body st).1 = inl ex.
Proof.
  intros Hx Hraise. revert st. induction l as [|y rest IH]; intros st.
  - by apply elem_of_nil in Hx.
  - simpl. unfold mbind, M_bind. apply elem_of_cons in Hx as [<-|Hx].
    + destruct (Hraise st) as [ex Hex].
      destruct (body x st) as [[ex'|u] st1]; simpl in Hex |- *;
        [by exists ex' | discriminate].
    + destruct (body y st) as [[ex'|u] st1]; simpl; [by exists ex' | by apply IH].
Qed.

(** Whether [check_gap] raises is decided by the world, not by the store. *)
Lemma check_gap_raises_anywhere w pair tf st ex st0 :
  (check_gap py w pair tf st).1 = inl ex → (check_gap py w pair tf st0).1 = inl ex.
Proof.
  unfold check_gap, mbind, M_bind, lift, send_to_telegram, append_row.
  repeat (case_match; simplify_eq; simpl; try done).
Qed.

(** The row [check_gap] appends. *)
Lemma check_gap_logged_row w pair tf st ev :
  sheet (check_gap py w pair tf st).2 = (sheet st ++ [ev])%list →
  Outcome ev = "Pending" ∧ Pair ev = pair ∧ TF ev = tf ∧
  (Direction ev = "GAP UP" ∨ Direction ev = "GAP DOWN").
Proof.
  assert (sheet st ≠ (sheet st ++ [ev])%list) as Hne.
  { intros H. apply (f_equal length) in H. rewrite length_app in H. simpl in H. lia. }
  unfold check_gap, mbind, M_bind, lift, send_to_telegram, append_row.
  repeat (case_match; simplify_eq; simpl);
    intros Hlog; try (by destruct (Hne Hlog));
    apply app_inv_head in Hlog; injection Hlog as <-; simpl; auto.
Qed.

End Runs_more.

(** The sweep keeps the eight columns other than the outcome, row by row. *)
Lemma sweep_frame (py : textlib) (later : nat → world) (st : store) :
  Forall2 (λ e e',
             Timestamp e' = Timestamp e ∧ Pair e' = Pair e ∧ TF e' = TF e ∧
             Gap_pips e' = Gap_pips e ∧ RSI e' = RSI e ∧ Direction e' = Direction e ∧
             Suggestion e' = Suggestion e ∧ ChartURL e' = ChartURL e)
          (sheet st) (sheet (update_outcomes py later st).2).
Proof.
  rewrite update_outcomes_loop.
  apply Forall2_same_length_lookup_2; [symmetry; apply sweep_length|].
  intros i e e' He He'.
  destruct (sweep_row py later (sheet st) 2 st i e He) as [H|(Hp & [H|H])].
  - intros k x Hk Hidx. replace k with i in Hk by lia. congruence.
  - rewrite H in He'. injection He' as <-. repeat split.
  - rewrite H in He'. injection He' as <-. repeat split.
  - rewrite H in He'. injection He' as <-. repeat split.
Qed.

(** X13. A run that returns has posted one message for each row it
    appended, at most ten of each, two for each of the five pairs; it has
    kept the messages there were, in place, and the rows there were, in
    place and with every column but the outcome as it was. *)
Theorem run_bot_accounting (py : textlib) (market : string → string → world)
    (later : nat → world) (st st' : store) :
  run_bot py market later st = (inr tt, st') →
  ∃ msgs,
    posted st' = (posted st ++ msgs)%list ∧
    length (sheet st') = length (sheet st) + length msgs ∧
    (length msgs ≤ 10)%nat ∧
    Forall2 (λ e e',
               Timestamp e' = Timestamp e ∧ Pair e' = Pair e ∧ TF e' = TF e ∧
               Gap_pips e' = Gap_pips e ∧ RSI e' = RSI e ∧ Direction e' = Direction e ∧
               Suggestion e' = Suggestion e ∧ ChartURL e' = ChartURL e)
            (sheet st) (take (length (sheet st)) (sheet st')).
Proof.
  unfold run_bot.
  set (detect := for_in PAIR_LIST _).
  assert (∃ rows msgs, sheet (detect st).2 = (sheet st ++ rows)%list ∧
            posted (detect st).2 = (posted st ++ msgs)%list ∧
            length rows = length msgs ∧ (length msgs ≤ 2 * length PAIR_LIST)%nat)
    as (rows & msgs & Hs & Hp & Hlen & Hb).
  { apply for_in_appends. intros pair st0.
    destruct (for_in_appends (TF_MAP.*1)
                (λ tf, check_gap py (market pair tf) pair tf) 1 st0)
      as (rows & msgs & Hs & Hp & Hlen & Hb).
    - intros tf st1.
      destruct (check_gap_cases py (market pair tf) pair tf st1)
        as [->|(ev & msg & -> & _)].
      + exists [], []. rewrite !app_nil_r. repeat split; simpl; lia.
      + exists [ev], [msg]. repeat split; simpl; lia.
    - exists rows, msgs. simpl in Hb. repeat split; try assumption; lia. }
  unfold mbind, M_bind.
  destruct (detect st) as [[ex|u] st1]; simpl in Hs, Hp |- *; [discriminate|].
  intros Hrun. exists msgs.
  pose proof (sweep_frame py later st1) as Hframe.
  pose proof (sweep_posted py later (sheet st1) 2 st1) as Hposted.
  pose proof (sweep_length py later (sheet st1) 2 st1) as Hlength.
  rewrite <- update_outcomes_loop in Hposted, Hlength.
  rewrite Hrun in Hframe, Hposted, Hlength. simpl in Hframe, Hposted, Hlength.
  simpl in Hb. repeat split.
  - by rewrite Hposted, Hp.
  - rewrite Hlength, Hs, length_app. lia.
  - lia.
  - apply (Forall2_take _ _ _ (length (sheet st))) in Hframe.
    rewrite Hs, take_app_length in Hframe. exact Hframe.
Qed.

Lemma run_bot_accounting_witness :
  ∃ msgs,
    posted (run_bot Sample.textlib (Scenario.market Scenario.quiet)
              (Scenario.revisit "1.2970" Scenario.seven_o_clock)
              {| sheet := [Scenario.logged "GAP UP" "Pending"]; posted := [] |}).2 = msgs ∧
    length (sheet (run_bot Sample.textlib (Scenario.market Scenario.quiet)
                     (Scenario.revisit "1.2970" Scenario.seven_o_clock)
                     {| sheet := [Scenario.logged "GAP UP" "Pending"]; posted := [] |}).2) =
      1 + length msgs ∧
    (length msgs ≤ 10)%nat.
Proof.
  destruct (run_bot_accounting Sample.textlib (Scenario.market Scenario.quiet)
              (Scenario.revisit "1.2970" Scenario.seven_o_clock)
              {| sheet := [Scenario.logged "GAP UP" "Pending"]; posted := [] |}
              (run_bot Sample.textlib (Scenario.market Scenario.quiet)
                 (Scenario.revisit "1.2970" Scenario.seven_o_clock)
                 {| sheet := [Scenario.logged "GAP UP" "Pending"]; posted := [] |}).2)
    as (msgs & Hp & Hl & Hb & _).
  - vm_compute. reflexivity.
  - exists msgs. repeat split; assumption.
Defined.

(** X14. An exception of [check_gap] for any configured pair and timeframe
    ends the run before the sweep: [run_bot] raises, and every row the sheet
    had is as it was, the pending ones that were due for an outcome too. *)
Theorem run_bot_raise_skips_sweep (py : textlib) (market : string → string → world)
    (later : nat → world) (st : store) (pair tf : string) (ex : exn) :
  pair ∈ PAIR_LIST → tf ∈ TF_MAP.*1 →
  (check_gap py (market pair tf) pair tf st).1 = inl ex →
  (∃ ex', (run_bot py market later st).1 = inl ex') ∧
  ∀ j e, sheet st !! j = Some e → sheet (run_bot py market later st).2 !! j = Some e.
Proof.
  intros Hpair Htf Hraise. unfold run_bot.
  set (detect := for_in PAIR_LIST _).
  assert (∃ ex', (detect st).1 = inl ex') as [ex' Hex'].
  { apply (for_in_raises PAIR_LIST _ pair st Hpair). intros st0.
    apply (for_in_raises (TF_MAP.*1) _ tf st0 Htf). intros st1.
    exists ex. by apply (check_gap_raises_anywhere py _ _ _ st). }
  assert (∀ j e, sheet st !! j = Some e → sheet (detect st).2 !! j = Some e) as Hkeep.
  { intros j e He. apply (for_in_keeps (λ s, sheet s !! j = Some e)); [|exact He].
    intros p st0 H0. apply (for_in_keeps (λ s, sheet s !! j = Some e)); [|exact H0].
    intros t st2 H2. by apply check_gap_keeps_rows. }
  unfold mbind, M_bind.
  destruct (detect st) as [[ex''|u] st1]; simpl in Hex', Hkeep |- *; [|discriminate].
  split; [by exists ex'' | exact Hkeep].
Qed.

Lemma run_bot_raise_skips_sweep_witness :
  (∃ ex', (run_bot Sample.textlib (λ _ _, Edge.values_null)
             (Scenario.revisit "1.2970" Scenario.seven_o_clock)
             {| sheet := [Scenario.logged "GAP UP" "Pending"]; posted := [] |}).1 = inl ex') ∧
  sheet (run_bot Sample.textlib (λ _ _, Edge.values_null)
           (Scenario.revisit "1.2970" Scenario.seven_o_clock)
           {| sheet := [Scenario.logged "GAP UP" "Pending"]; posted := [] |}).2 !! 0 =
    Some (Scenario.logged "GAP UP" "Pending").
Proof.
  destruct (run_bot_raise_skips_sweep Sample.textlib (λ _ _, Edge.values_null)
              (Scenario.revisit "1.2970" Scenario.seven_o_clock)
              {| sheet := [Scenario.logged "GAP UP" "Pending"]; posted := [] |}
              "EUR/JPY" "1day" TypeError) as [Hex Hrows].
  - unfold PAIR_LIST. set_solver.
  - simpl. set_solver.
  - reflexivity.
  - split; [exact Hex | by apply Hrows].
Defined.

(** X15. What [check_gap] logs, [update_outcomes] settles: in a sweep that
    completes, the row [check_gap] appended gets one of the two outcomes
    once it is old enough, a candle is read for its pair and timeframe, and
    its gap and timestamp read back from the sheet. *)
Theorem logged_event_gets_outcome (py : textlib) (w : world) (pair tf : string)
    (st st2 : store) (ev : row) (later : nat → world)
    (gap_pips : float) (occured_at n : Z) (open_price curr_price : float) :
  let st1 := (check_gap py w pair tf st).2 in
  let j := length (sheet st) in
  let w' := later (j + 2) in
  let candles := get_candles w' pair tf 1 in
  sheet st1 = (sheet st ++ [ev])%list →
  update_outcomes py later st1 = (inr tt, st2) →
  float_of_str py (Gap_pips ev) = Some gap_pips →
  strptime py (Timestamp ev) = Some occured_at →
  (wait_time_for tf * 1000000 ≤ utcnow w' - occured_at)%Z →
  py_len candles = inr n → (1 ≤ n)%Z →
  price py candles 0 "open" = inr open_price →
  price py candles 0 "close" = inr curr_price →
  sheet st2 !! j = Some (set_cell 8 "Filled ✅" ev) ∨
  sheet st2 !! j = Some (set_cell 8 "Not Filled ❌" ev).
Proof.
  intros st1 j w' candles Hlog Hrun Hgap Ht Hage Hlen Hn Hopen Hclose.
  destruct (check_gap_logged_row py w pair tf st ev Hlog) as (Hp & Hpair & Htf & Hdir).
  assert (sheet st1 !! j = Some ev) as Hev.
  { rewrite Hlog. unfold j. by rewrite lookup_app_r, Nat.sub_diag. }
  rewrite update_outcomes_loop in Hrun.
  pose proof (λ st0, update_outcomes_body_run py w' ev gap_pips occured_at n open_price
                curr_price (j + 2) st0) as Hbody.
  rewrite Hpair, Htf in Hbody.
  specialize (λ st0, Hbody st0 Hp Hgap Ht Hage Hlen Hn Hopen Hclose).
  cbv zeta in Hbody.
  set (up := (curr_price <=? open_price - gap_pips * update_outcomes_pip_value pair)%float)
    in Hbody.
  set (down := (open_price + gap_pips * update_outcomes_pip_value pair <=? curr_price)%float)
    in Hbody.
  assert (∃ v, (v = "Filled ✅" ∨ v = "Not Filled ❌") ∧
               ∀ st0, update_outcomes_body py w' (j + 2) ev st0 = update_cell (j + 2) 8 v st0)
    as (v & Hv & Hwrite).
  { destruct Hdir as [Hd|Hd]; rewrite Hd in Hbody; simpl String.eqb in Hbody;
      cbv iota in Hbody; [destruct up | destruct down]; eauto. }
  pose proof (sweep_writes py later (sheet st1) 2 st1 st2 j j ev ev v Hrun Hev
                ltac:(lia) Hev Hwrite) as Hrow.
  destruct Hv as [-> | ->]; [by left | by right].
Qed.

Lemma logged_event_gets_outcome_witness :
  Outcome <$>
    sheet (update_outcomes Sample.textlib (Scenario.revisit "1.2960" 1714568400000000)
             (check_gap Sample.textlib Scenario.gap_up "GBP/USD" "4h" Scenario.no_store).2).2
      !! 0 = Some "Filled ✅".
Proof.
  destruct (logged_event_gets_outcome Sample.textlib Scenario.gap_up "GBP/USD" "4h"
              Scenario.no_store
              (update_outcomes Sample.textlib (Scenario.revisit "1.2960" 1714568400000000)
                 (check_gap Sample.textlib Scenario.gap_up "GBP/USD" "4h"
                    Scenario.no_store).2).2
              {| Timestamp := "2024-05-01 07:00:00"; Pair := "GBP/USD"; TF := "4h";
                 Gap_pips := "30.0"; RSI := "55.3"; Direction := "GAP UP";
                 Suggestion := "GAP UP. Wait for structure."; Outcome := "Pending";
                 ChartURL :=
                   "https://www.tradingview.com/chart/?symbol=FX:GBPUSD&interval=240" |}
              (Scenario.revisit "1.2960" 1714568400000000)
              30 1714546800000000 1 1.3 1.296) as [H|H].
  - vm_compute. reflexivity.
  - vm_compute. reflexivity.
  - vm_compute. reflexivity.
  - vm_compute. reflexivity.
  - vm_compute. discriminate.
  - vm_compute. reflexivity.
  - vm_compute. discriminate.
  - vm_compute. reflexivity.
  - vm_compute. reflexivity.
  - vm_compute in H |- *. reflexivity.
  - vm_compute in H. discriminate H.
Defined.
